(** * ics: decoding of iCalendar text (decode.go)

    A shallow embedding of package [ics]: the line reader [decodeLine], the
    event loop [decodeEvent], the top-level loop [decode], the date parser
    [decodeDate], the comparator [eventList.Less] and [UnescapeText], with the
    parts of Go's [strings], [bufio], [time] and [sort] packages they call.

    Go strings are byte sequences; they are modelled by [string], a sequence
    of 8-bit [ascii] characters. *)

From Stdlib Require Import Ascii String List Bool Arith ZArith Lia.
From Stdlib Require Import Sorting.Sorted Sorting.Permutation.
Import ListNotations.

Open Scope string_scope.

(** ** Package [strings] *)

Module strings.

(** [strings.HasPrefix]. *)
Fixpoint HasPrefix (s prefix : string) {struct prefix} : bool :=
  match prefix, s with
  | EmptyString, _ => true
  | String _ _, EmptyString => false
  | String p prefix', String c s' => Ascii.eqb c p && HasPrefix s' prefix'
  end.

(** The scan of [strings.Replace s old new (-1)] for a non-empty [old]: the
    instances of [old] are found left to right and do not overlap.  [skip]
    counts the bytes of a matched instance still to be passed over. *)
Fixpoint replaceFrom (old new : string) (skip : nat) (s : string) : string :=
  match s with
  | EmptyString => EmptyString
  | String c s' =>
      match skip with
      | S k => replaceFrom old new k s'
      | O =>
          if HasPrefix s old
          then new ++ replaceFrom old new (String.length old - 1) s'
          else String c (replaceFrom old new 0 s')
      end
  end.

(** [strings.Replace(s, old, new, -1)], for the non-empty [old] strings that
    decode.go passes. *)
Definition Replace (s old new : string) : string := replaceFrom old new 0 s.

(** Membership of a byte in a cutset. *)
Fixpoint inCutset (cutset : string) (c : ascii) : bool :=
  match cutset with
  | EmptyString => false
  | String d cutset' => Ascii.eqb c d || inCutset cutset' c
  end.

Fixpoint TrimLeft (s cutset : string) : string :=
  match s with
  | EmptyString => EmptyString
  | String c s' => if inCutset cutset c then TrimLeft s' cutset else s
  end.

Fixpoint TrimRight (s cutset : string) : string :=
  match s with
  | EmptyString => EmptyString
  | String c s' =>
      match TrimRight s' cutset with
      | EmptyString => if inCutset cutset c then EmptyString else String c EmptyString
      | t => String c t
      end
  end.

(** [strings.Trim]: leading and trailing bytes of the cutset removed. *)
Definition Trim (s cutset : string) : string := TrimRight (TrimLeft s cutset) cutset.

(** The text before the first [sep] byte and the text after it, when [s] has
    one. *)
Fixpoint cutByte (sep : ascii) (s : string) : option (string * string) :=
  match s with
  | EmptyString => None
  | String c s' =>
      if Ascii.eqb c sep then Some (EmptyString, s')
      else match cutByte sep s' with
           | Some (before, after) => Some (String c before, after)
           | None => None
           end
  end.

(** [strings.SplitN(s, sep, 2)] for a one-byte separator: two parts around the
    first separator, or [s] alone when there is none. *)
Definition SplitN2 (s : string) (sep : ascii) : list string :=
  match cutByte sep s with
  | Some (before, after) => [before; after]
  | None => [s]
  end.

End strings.

(** ** Errors *)

(** The error values that reach the decoder: [io.EOF] and
    [io.ErrUnexpectedEOF], [bufio.ErrBufferFull], the errors that the package
    builds with [errors.New], and the [*time.ParseError] of [time.Parse]. *)
Inductive error : Type :=
  | io_EOF
  | io_ErrUnexpectedEOF
  | bufio_ErrBufferFull
  | errBadLine        (* "bad line, couldn't find key:value" *)
  | errNoVCalendar    (* "didn't find BEGIN:VCALENDAR" *)
  | errLongLine       (* "unexpected long line" *)
  | errTimeParse.     (* *time.ParseError *)

Definition error_eqb (a b : error) : bool :=
  match a, b with
  | io_EOF, io_EOF
  | io_ErrUnexpectedEOF, io_ErrUnexpectedEOF
  | bufio_ErrBufferFull, bufio_ErrBufferFull
  | errBadLine, errBadLine
  | errNoVCalendar, errNoVCalendar
  | errLongLine, errLongLine
  | errTimeParse, errTimeParse => true
  | _, _ => false
  end.

(** ** Package [bufio] *)

Module bufio.

(** A [*bufio.Reader] over a stream that delivers finitely many bytes and then
    reports [io.EOF] at every read: the state is the bytes not yet consumed. *)
Definition Reader : Type := string.

(** [r.ReadBytes(delim)]: the bytes up to and including the first [delim];
    at end of stream the bytes read so far together with [io.EOF]. *)
Fixpoint ReadBytes (r : Reader) (delim : ascii) : string * option error * Reader :=
  match r with
  | EmptyString => (EmptyString, Some io_EOF, EmptyString)
  | String c r' =>
      if Ascii.eqb c delim then (String c EmptyString, None, r')
      else let '(b, err, r'') := ReadBytes r' delim in (String c b, err, r'')
  end.

(** [r.Peek(1)]: the next byte, not consumed; [io.EOF] when there is none. *)
Definition Peek1 (r : Reader) : string * option error :=
  match r with
  | EmptyString => (EmptyString, Some io_EOF)
  | String c _ => (String c EmptyString, None)
  end.

End bufio.

(** ** Package [time] *)

Module time.

(** A [time.Time] as the decoder meets it: every value is either [Time{}] or
    the result of [time.Parse] with the layout [20060102], an instant at
    00:00:00 UTC of a valid civil date, so the instant is given by its year,
    month and day. *)
Record Time : Type := mkTime { Year : Z; Month : Z; Day : Z }.

(** [time.Time{}]: January 1, year 1, 00:00:00 UTC. *)
Definition zero : Time := mkTime 1 1 1.

(** [t.IsZero()]: whether [t] is the instant January 1, year 1, 00:00:00 UTC. *)
Definition IsZero (t : Time) : bool :=
  (Year t =? 1)%Z && (Month t =? 1)%Z && (Day t =? 1)%Z.

(** [t.Before(u)]: on valid civil dates at midnight UTC the order of instants
    is the lexicographic order of (year, month, day). *)
Definition Before (t u : Time) : bool :=
  (Year t <? Year u)%Z
  || ((Year t =? Year u)%Z
      && ((Month t <? Month u)%Z
          || ((Month t =? Month u)%Z && (Day t <? Day u)%Z))).

Definition isDigitByte (c : ascii) : bool :=
  (48 <=? nat_of_ascii c)%nat && (nat_of_ascii c <=? 57)%nat.

Definition digitVal (c : ascii) : Z := Z.of_nat (nat_of_ascii c - 48).

(** [isDigit(s, i)]: whether [s[i]] is in range and is a decimal digit. *)
Definition isDigit (s : string) (i : nat) : bool :=
  match String.get i s with
  | Some c => isDigitByte c
  | None => false
  end.

(** [s[i:]]. *)
Definition sliceFrom (s : string) (i : nat) : string :=
  String.substring i (String.length s - i) s.

(** [leadingInt]: the leading decimal digits of [s] as a number, and the rest.
    (Its overflow guard needs more than 18 digits; [atoi] is called on 4.) *)
Fixpoint leadingInt (x : Z) (s : string) : Z * string :=
  match s with
  | EmptyString => (x, EmptyString)
  | String c s' =>
      if isDigitByte c then leadingInt (x * 10 + digitVal c)%Z s' else (x, s)
  end.

(** [atoi]: an optional sign, then digits only. *)
Definition atoi (s : string) : Z * option error :=
  let '(neg, s) :=
    match s with
    | String c s' =>
        if Ascii.eqb c "-" then (true, s')
        else if Ascii.eqb c "+" then (false, s')
        else (false, s)
    | EmptyString => (false, s)
    end in
  let '(q, rem) := leadingInt 0 s in
  match rem with
  | EmptyString => (if neg then (- q)%Z else q, None)
  | String _ _ => (0%Z, Some errTimeParse)
  end.

(** [getnum(s, fixed)]: a one- or two-digit number; exactly two when [fixed]. *)
Definition getnum (s : string) (fixed : bool) : Z * string * option error :=
  if negb (isDigit s 0) then (0%Z, s, Some errTimeParse)
  else if negb (isDigit s 1) then
    if fixed then (0%Z, s, Some errTimeParse)
    else match s with
         | String c s' => (digitVal c, s', None)
         | EmptyString => (0%Z, s, Some errTimeParse)
         end
  else match s with
       | String c (String d s') => ((digitVal c * 10 + digitVal d)%Z, s', None)
       | _ => (0%Z, s, Some errTimeParse)
       end.

Definition isLeap (year : Z) : bool :=
  (year mod 4 =? 0)%Z && (negb (year mod 100 =? 0)%Z || (year mod 400 =? 0)%Z).

(** [daysIn(m, year)]. *)
Definition daysIn (m year : Z) : Z :=
  if (m =? 2)%Z && isLeap year then 29%Z
  else nth (Z.to_nat (m - 1))
           [31; 28; 31; 30; 31; 30; 31; 31; 30; 31; 30; 31]%Z 0%Z.

(** [time.Parse("20060102", value)]: a four-digit year ([stdLongYear]), a
    two-digit month ([stdZeroMonth]) checked to be in 1..12, a two-digit day
    ([stdZeroDay]), no text after them, and the day checked against the
    month's length; the instant is in UTC.  On failure Go returns [Time{}]
    with a [*ParseError]. *)
Definition Parse_20060102 (value : string) : Time * option error :=
  let bad := (zero, Some errTimeParse) in
  if (String.length value <? 4)%nat || negb (isDigit value 0) then bad
  else
    let '(year, err) := atoi (String.substring 0 4 value) in
    let value := sliceFrom value 4 in
    match err with
    | Some _ => bad
    | None =>
        let '(month, value, err) := getnum value true in
        match err with
        | Some _ => bad
        | None =>
            if (month <=? 0)%Z || (12 <? month)%Z then bad
            else
              let '(day, value, err) := getnum value true in
              match err with
              | Some _ => bad
              | None =>
                  if negb (String.length value =? 0)%nat then bad
                  else if (day <? 1)%Z || (daysIn month year <? day)%Z then bad
                  else (mkTime year month day, None)
              end
        end
    end.

End time.

(** ** Package [ics] *)

Import strings bufio.

Definition LF : ascii := "010"%char.
Definition CR : ascii := "013"%char.

Record Event : Type := mkEvent {
  UID : string;
  Start : time.Time;
  End : time.Time;
  Summary : string;
  Location : string;
  Description : string
}.

Record Calendar : Type := mkCalendar { Calendar_Event : list Event }.

(** [new(Event)]: every field at its zero value. *)
Definition newEvent : Event :=
  mkEvent EmptyString time.zero time.zero EmptyString EmptyString EmptyString.

(** [new(Calendar)]. *)
Definition newCalendar : Calendar := mkCalendar [].

(** [UnescapeText]: the six replacements, in the order of the source. *)
Definition UnescapeText (s : string) : string :=
  let s := Replace s "\;" ";" in
  let s := Replace s "\," "," in
  let s := Replace s "\n" (String LF EmptyString) in
  let s := Replace s "\\" "\" in
  let s := Replace s (String LF EmptyString) " " in
  let s := Replace s "&nbsp" " " in
  s.

(** [decodeDate]: values shorter than 8 bytes give the default date and no
    error; otherwise the first 8 bytes are parsed. *)
Definition decodeDate (value : string) : time.Time * option error :=
  if (String.length value <? 8)%nat then (time.zero, None)
  else time.Parse_20060102 (String.substring 0 8 value).

(** *** [decodeLine] *)

(** [if b[0] == ' ' { b = b[1:] }], for a [b] that is not empty. *)
Definition stripSpace (b : string) : string :=
  match b with
  | String c b' => if Ascii.eqb c " " then b' else b
  | EmptyString => b
  end.

(** How the [for !done] loop of [decodeLine] ends: with the buffer assembled
    (the loop condition fails, or [break]), or with a read error other than
    [io.EOF] (the early [return]). *)
Inductive lineLoop : Type :=
  | LineBuf (buf : string) (r : Reader)
  | LineErr (err : error) (r : Reader).

(** The loop of [decodeLine].  [fuel] bounds the number of passes and [None]
    is the bound reached; [decodeLine_total] shows that the bound [decodeLine]
    gives is never reached. *)
Fixpoint decodeLine_loop (fuel : nat) (r : Reader) (buf : string) (done : bool)
  : option lineLoop :=
  match fuel with
  | O => None
  | S fuel' =>
      if done then Some (LineBuf buf r)
      else
        let '(b, err, r) := ReadBytes r LF in
        match (match err with
               | Some e => if error_eqb e io_EOF then inl true else inr e
               | None => inl done
               end) with
        | inr e => Some (LineErr e r)
        | inl done =>
            if (String.length b =? 0)%nat then
              decodeLine_loop fuel' r buf done            (* continue *)
            else
              let b := stripSpace b in
              let buf := buf ++ b in
              match Peek1 r with
              | (String c _, None) =>
                  if negb (Ascii.eqb c " ") then Some (LineBuf buf r)   (* break *)
                  else decodeLine_loop fuel' r buf done
              | _ => Some (LineBuf buf r)                              (* break *)
              end
        end
  end.

(** The cutset of the trimming mode: space, carriage return, line feed. *)
Definition crlfCutset : string := String " " (String CR (String LF EmptyString)).

(** What [decodeLine] does with the assembled buffer: the split at the first
    colon and the trimming. *)
Definition splitLine (buf : string) (removeCRLF : bool)
  : string * string * option error :=
  match SplitN2 buf ":" with
  | [p0; p1] =>
      if negb removeCRLF
      then (Trim p0 " ", Trim p1 " ", None)
      else (Trim p0 crlfCutset, Trim p1 crlfCutset, None)
  | _ => (EmptyString, EmptyString, Some errBadLine)
  end.

(** [decodeLine]: Go's [(key, value, err)] and the reader as the call leaves
    it. *)
Definition decodeLine (r : Reader) (removeCRLF : bool)
  : option (string * string * option error * Reader) :=
  match decodeLine_loop (String.length r + 2) r EmptyString false with
  | None => None
  | Some (LineErr e r) => Some (EmptyString, EmptyString, Some e, r)
  | Some (LineBuf buf r) => Some (splitLine buf removeCRLF, r)
  end.

(** *** [decodeEvent] *)

(** One pass of the loop of [decodeEvent] after its call of [decodeLine]:
    [Return] is [return e, nil] at END:VEVENT, [Continue] the next pass with
    the event and [err] as the pass left them. *)
Inductive eventStep : Type :=
  | Return (e : Event)
  | Continue (e : Event) (err : option error).

Definition setUID (e : Event) (v : string) : Event :=
  mkEvent v (Start e) (End e) (Summary e) (Location e) (Description e).
Definition setStart (e : Event) (t : time.Time) : Event :=
  mkEvent (UID e) t (End e) (Summary e) (Location e) (Description e).
Definition setEnd (e : Event) (t : time.Time) : Event :=
  mkEvent (UID e) (Start e) t (Summary e) (Location e) (Description e).
Definition setSummary (e : Event) (v : string) : Event :=
  mkEvent (UID e) (Start e) (End e) v (Location e) (Description e).
Definition setLocation (e : Event) (v : string) : Event :=
  mkEvent (UID e) (Start e) (End e) (Summary e) v (Description e).
Definition setDescription (e : Event) (v : string) : Event :=
  mkEvent (UID e) (Start e) (End e) (Summary e) (Location e) v.

(** The "Fix dates" rewriting of the key. *)
Definition fixKey (key : string) : string :=
  let key := if (7 <=? String.length key)%nat
                && (String.substring 0 7 key =? "DTSTART")
             then "DTSTART" else key in
  let key := if (5 <=? String.length key)%nat
                && (String.substring 0 5 key =? "DTEND")
             then "DTEND" else key in
  key.

(** The body of the loop from "Fix dates" to the end of the [switch]; [err] is
    the error of the [decodeLine] call. *)
Definition eventBody (key value : string) (err : option error) (e : Event)
  : eventStep :=
  let key := fixKey key in
  let value := UnescapeText value in
  if key =? "END" then
    if negb (value =? "VEVENT") then Continue e err else Return e
  else if key =? "UID" then Continue (setUID e value) err
  else if key =? "DTSTART" then
    let '(t, err) := decodeDate value in Continue (setStart e t) err
  else if key =? "DTSTART;VALUE=DATE" then
    let '(t, err) := decodeDate value in Continue (setStart e t) err
  else if key =? "DTEND" then
    let '(t, err) := decodeDate value in Continue (setEnd e t) err
  else if key =? "DTEND;VALUE=DATE" then
    let '(t, err) := decodeDate value in Continue (setEnd e t) err
  else if key =? "SUMMARY" then Continue (setSummary e value) err
  else if key =? "LOCATION" then Continue (setLocation e value) err
  else if key =? "DESCRIPTION" then Continue (setDescription e value) err
  else Continue e err.

(** The [for] loop of [decodeEvent].  Go's result pair is [e, nil] or
    [nil, err]: [inl e] or [inr err] here, with the reader as left. *)
Fixpoint decodeEvent_loop (fuel : nat) (r : Reader) (removeCRLF : bool)
    (e : Event) (err : option error) : option ((Event + error) * Reader) :=
  match fuel with
  | O => None
  | S fuel' =>
      match err with
      | Some er =>
          if error_eqb er io_EOF then Some (inl e, r)
          else Some (inr er, r)
      | None =>
          match decodeLine r removeCRLF with
          | None => None
          | Some (key, value, err, r) =>
              match eventBody key value err e with
              | Return e => Some (inl e, r)
              | Continue e err => decodeEvent_loop fuel' r removeCRLF e err
              end
          end
      end
  end.

Definition decodeEvent (r : Reader) (removeCRLF : bool)
  : option ((Event + error) * Reader) :=
  decodeEvent_loop (String.length r + 2) r removeCRLF newEvent None.

(** *** Sorting *)

(** [eventList.Less] on the two elements that the indices select. *)
Definition less (a b : Event) : bool :=
  if time.IsZero (Start a) then true
  else if time.IsZero (Start b) then false
  else time.Before (Start a) (Start b).

(** [eventList.Less(i, j)]; [None] is the index-out-of-range panic. *)
Definition eventList_Less (l : list Event) (i j : nat) : option bool :=
  match nth_error l i, nth_error l j with
  | Some a, Some b => Some (less a b)
  | _, _ => None
  end.

(** The inner loop of the library's [insertionSort]: the element [x] at index
    [j] is swapped with its left neighbour while [Less(j, j-1)].  [before] is
    the part of the slice to the left of [x], nearest element first. *)
Fixpoint sinkLeft (x : Event) (before : list Event) : list Event :=
  match before with
  | [] => [x]
  | y :: before' => if less x y then y :: sinkLeft x before' else x :: before
  end.

(** [sort.Sort(eventList(l))], modelled by the insertion sort that the library
    runs on slices of at most 12 elements, which uses [Less] and [Swap]
    only. *)
Definition sort_Sort (l : list Event) : list Event :=
  rev (fold_left (fun before x => sinkLeft x before) l []).

(** *** [decode] *)

(** Outcome of [decode]: the calendar, the error, or the run-time panic of a
    nil pointer dereference. *)
Inductive outcome : Type :=
  | Ok (c : Calendar)
  | Err (err : error)
  | Panic.

(** The [if key == "BEGIN"] block of [decode]: the calendar pointer and the
    reader after it, or the error it returns.  [c] is [None] for nil. *)
Definition beginBlock (key value : string) (r : Reader) (removeCRLF : bool)
    (c : option Calendar) : option ((option Calendar * Reader) + error) :=
  if key =? "BEGIN" then
    match (match c with
           | None =>
               if negb (value =? "VCALENDAR") then inr errNoVCalendar
               else inl newCalendar
           | Some c => inl c
           end) with
    | inr er => Some (inr er)
    | inl c =>
        if value =? "VEVENT" then
          match decodeEvent r removeCRLF with
          | None => None
          | Some (inr er, _) => Some (inr er)
          | Some (inl e, r) =>
              Some (inl (Some (mkCalendar (Calendar_Event c ++ [e])), r))
          end
        else Some (inl (Some c, r))
    end
  else Some (inl (c, r)).

(** The statements after the loop: [sort.Sort(eventList(c.Event))], which
    dereferences [c], and [return c, nil]. *)
Definition afterLoop (c : option Calendar) : outcome :=
  match c with
  | None => Panic
  | Some c => Ok (mkCalendar (sort_Sort (Calendar_Event c)))
  end.

(** The [for] loop of [decode] and what follows it. *)
Fixpoint decode_loop (fuel : nat) (r : Reader) (removeCRLF : bool)
    (c : option Calendar) : option outcome :=
  match fuel with
  | O => None
  | S fuel' =>
      match decodeLine r removeCRLF with
      | None => None
      | Some (_, _, Some er, _) => Some (Err er)
      | Some (key, value, None, r) =>
          match beginBlock key value r removeCRLF c with
          | None => None
          | Some (inr er) => Some (Err er)
          | Some (inl (c, r)) =>
              if (key =? "END") && (value =? "VCALENDAR")
              then Some (afterLoop c)                          (* break *)
              else decode_loop fuel' r removeCRLF c
          end
      end
  end.

Definition decode (r : Reader) (removeCRLF : bool) : option outcome :=
  decode_loop (String.length r + 1) r removeCRLF None.

Definition Decode (r : Reader) : option outcome := decode r true.
Definition DecodePreserveCRLF (r : Reader) : option outcome := decode r false.

(** Raw lines of a stream, each followed by a line feed. *)
Definition nl : string := String LF EmptyString.

Fixpoint lines (l : list string) : string :=
  match l with
  | [] => EmptyString
  | x :: l' => x ++ nl ++ lines l'
  end.

Definition minimal : string :=
  lines ["BEGIN:VCALENDAR"; "BEGIN:VEVENT"; "UID:1@test"; "DTSTART:20230101";
         "DTEND:20230102"; "SUMMARY:Test"; "END:VEVENT"; "END:VCALENDAR"].

(** ** The variant of the file that reads raw lines with [ReadLine]

    The repository holds a second variant of the file, whose [decodeLine]
    calls [r.ReadLine()] where decode.go calls [r.ReadBytes('\n')], and
    returns the two parts untrimmed. *)

Module ReadLineVariant.

(** The buffer of [bufio.NewReader]: [defaultBufSize]. *)
Definition bufSize : nat := 4096.

(** [r.ReadSlice(delim)] on a buffer with [room] bytes: the bytes up to and
    including [delim]; the whole buffer with [bufio.ErrBufferFull] when it
    fills first; the rest of the stream with [io.EOF] when that ends first
    (the stream reports its end on a read of its own). *)
Fixpoint ReadSlice_scan (room : nat) (r : Reader) (delim : ascii)
  : string * option error * Reader :=
  match room with
  | O => (EmptyString, Some bufio_ErrBufferFull, r)
  | S room' =>
      match r with
      | EmptyString => (EmptyString, Some io_EOF, EmptyString)
      | String c r' =>
          if Ascii.eqb c delim then (String c EmptyString, None, r')
          else let '(b, err, r'') := ReadSlice_scan room' r' delim in
               (String c b, err, r'')
      end
  end.

Definition ReadSlice (r : Reader) (delim : ascii) : string * option error * Reader :=
  ReadSlice_scan bufSize r delim.

(** [line[len(line)-1]]. *)
Fixpoint lastByte (s : string) : option ascii :=
  match s with
  | EmptyString => None
  | String c EmptyString => Some c
  | String _ s' => lastByte s'
  end.

(** [line[:len(line)-drop]]. *)
Definition dropLast (drop : nat) (s : string) : string :=
  String.substring 0 (String.length s - drop) s.

Definition isByte (o : option ascii) (c : ascii) : bool :=
  match o with
  | Some d => Ascii.eqb d c
  | None => false
  end.

(** [r.ReadLine()]: [(line, isPrefix, err)] and the reader after it.  The
    line comes without its end-of-line bytes; a line that does not fit the
    buffer comes in pieces with [isPrefix] set. *)
Definition ReadLine (r : Reader) : string * bool * option error * Reader :=
  let '(line, err, r) := ReadSlice r LF in
  if match err with Some e => error_eqb e bufio_ErrBufferFull | None => false end
  then
    (* the case where "\r\n" straddles the buffer: the '\r' is put back *)
    if isByte (lastByte line) CR then (dropLast 1 line, true, None, String CR r)
    else (line, true, None, r)
  else if (String.length line =? 0)%nat then (EmptyString, false, err, r)
  else
    let line :=
      if isByte (lastByte line) LF then
        let drop := if (1 <? String.length line)%nat
                       && isByte (lastByte (dropLast 1 line)) CR
                    then 2 else 1 in
        dropLast drop line
      else line in
    (line, false, None, r).

Fixpoint decodeLine_loop (fuel : nat) (r : Reader) (buf : string)
  : option lineLoop :=
  match fuel with
  | O => None
  | S fuel' =>
      let '(b, isPrefix, err, r) := ReadLine r in
      match err with
      | Some e =>
          Some (LineErr (if error_eqb e io_EOF then io_ErrUnexpectedEOF else e) r)
      | None =>
          if isPrefix then Some (LineErr errLongLine r)
          else if (String.length b =? 0)%nat then
            decodeLine_loop fuel' r buf                     (* continue *)
          else
            let b := stripSpace b in
            let buf := buf ++ b in
            match Peek1 r with
            | (String c _, None) =>
                if negb (Ascii.eqb c " ") then Some (LineBuf buf r)   (* break *)
                else decodeLine_loop fuel' r buf
            | _ => Some (LineBuf buf r)                              (* break *)
            end
      end
  end.

Definition decodeLine (r : Reader)
  : option (string * string * option error * Reader) :=
  match decodeLine_loop (String.length r + 1) r EmptyString with
  | None => None
  | Some (LineErr e r) => Some (EmptyString, EmptyString, Some e, r)
  | Some (LineBuf buf r) =>
      match SplitN2 buf ":" with
      | [p0; p1] => Some (p0, p1, None, r)
      | _ => Some (EmptyString, EmptyString, Some errBadLine, r)
      end
  end.

End ReadLineVariant.

(** ** Notions and streams of the statements *)

(** Whether the byte [c] occurs in [s]. *)
Fixpoint containsByte (s : string) (c : ascii) : bool :=
  match s with
  | EmptyString => false
  | String d s' => Ascii.eqb d c || containsByte s' c
  end.

(** The logical line that a call of [decodeLine] on [r] assembles, and the
    reader after it. *)
Definition logicalLine (r : Reader) : option lineLoop :=
  decodeLine_loop (String.length r + 2) r EmptyString false.


Definition lexLt (t u : time.Time) : Prop :=
  (time.Year t < time.Year u
   \/ time.Year t = time.Year u
      /\ (time.Month t < time.Month u
          \/ time.Month t = time.Month u /\ time.Day t < time.Day u))%Z.


Definition shortDateCalendar : string :=
  lines ["BEGIN:VCALENDAR"; "BEGIN:VEVENT"; "UID:1@test"; "DTSTART:2023";
         "END:VEVENT"; "END:VCALENDAR"].

Definition truncatedEvent : string :=
  lines ["BEGIN:VCALENDAR"; "BEGIN:VEVENT"; "UID:1@test"; "SUMMARY:Test"].

Definition foldedSummary : string :=
  lines ["BEGIN:VCALENDAR"; "BEGIN:VEVENT"; "SUMMARY:Hel"; " lo";
         "END:VEVENT"; "END:VCALENDAR"].

Definition unfoldedSummary : string :=
  lines ["BEGIN:VCALENDAR"; "BEGIN:VEVENT"; "SUMMARY:Hello";
         "END:VEVENT"; "END:VCALENDAR"].

Definition twoUnset : string :=
  lines ["BEGIN:VCALENDAR"; "BEGIN:VEVENT"; "UID:a"; "END:VEVENT";
         "BEGIN:VEVENT"; "UID:b"; "END:VEVENT"; "END:VCALENDAR"].

(** Whether [s] ends with the byte [c]. *)
Fixpoint endsWithByte (s : string) (c : ascii) : bool :=
  match s with
  | EmptyString => false
  | String d EmptyString => Ascii.eqb d c
  | String _ s' => endsWithByte s' c
  end.

(** Whether the first byte, or the last byte, of [s] is in the cutset. *)
Definition firstIn (cutset s : string) : bool :=
  match s with
  | EmptyString => false
  | String c _ => inCutset cutset c
  end.

Fixpoint lastIn (cutset s : string) : bool :=
  match s with
  | EmptyString => false
  | String c EmptyString => inCutset cutset c
  | String _ s' => lastIn cutset s'
  end.

(** A civil date of the years 0 to 9999. *)
Definition validDate (t : time.Time) : Prop :=
  (0 <= time.Year t <= 9999
   /\ 1 <= time.Month t <= 12
   /\ 1 <= time.Day t <= time.daysIn (time.Month t) (time.Year t))%Z.

(** An event as the decoder builds it: text fields of one line, dates that
    are civil dates. *)
Definition wellFormed (e : Event) : Prop :=
  containsByte (UID e) LF = false
  /\ containsByte (Summary e) LF = false
  /\ containsByte (Location e) LF = false
  /\ containsByte (Description e) LF = false
  /\ validDate (Start e) /\ validDate (End e).

(** The largest number that [n] more decimal digits can make of [x]. *)
Fixpoint digitsBound (n : nat) (x : Z) : Z :=
  match n with
  | O => x
  | S n' => digitsBound n' (x * 10 + 9)
  end.

(** The decimal digit [n] as a byte, and a date written as YYYYMMDD. *)
Definition digitByte (n : Z) : ascii := ascii_of_nat (48 + Z.to_nat n).

Definition date8 (y m d : Z) : string :=
  String (digitByte (y / 1000))
    (String (digitByte (y / 100 mod 10))
       (String (digitByte (y / 10 mod 10))
          (String (digitByte (y mod 10))
             (String (digitByte (m / 10))
                (String (digitByte (m mod 10))
                   (String (digitByte (d / 10))
                      (String (digitByte (d mod 10)) EmptyString))))))).

(** The byte [c], [n] times. *)
Fixpoint repeatByte (n : nat) (c : ascii) : string :=
  match n with
  | O => EmptyString
  | S n' => String c (repeatByte n' c)
  end.

(** [strings.Join]. *)
Fixpoint strings_Join (elems : list string) (sep : string) : string :=
  match elems with
  | [] => EmptyString
  | [x] => x
  | x :: elems' => x ++ sep ++ strings_Join elems' sep
  end.

(** [t.String()] for the instants of the decoder, 00:00:00 UTC of a civil
    date of the years 0 to 9999: the layout
    [2006-01-02 15:04:05.999999999 -0700 MST], with the year on four digits
    and no fraction of a second. *)
Definition Time_String (t : time.Time) : string :=
  let y := time.Year t in
  let m := time.Month t in
  let d := time.Day t in
  String (digitByte (y / 1000))
    (String (digitByte (y / 100 mod 10))
       (String (digitByte (y / 10 mod 10))
          (String (digitByte (y mod 10))
             (String "-"
                (String (digitByte (m / 10))
                   (String (digitByte (m mod 10))
                      (String "-"
                         (String (digitByte (d / 10))
                            (String (digitByte (d mod 10))
                               " 00:00:00 +0000 UTC"))))))))).

(** [(e *Event) String()]. *)
Definition Event_String (e : Event) : string :=
  let s : list string := [] in
  let s := (s ++ [("UID:" ++ UID e)%string])%list in
  let s := (s ++ [("Start: " ++ Time_String (Start e))%string])%list in
  let s := (s ++ [("End: " ++ Time_String (End e))%string])%list in
  let s := (s ++ [("Summary: " ++ Summary e)%string])%list in
  let s := (s ++ [("Location: " ++ Location e)%string])%list in
  let s := (s ++ [("Description: " ++ Description e)%string])%list in
  strings_Join s nl.

(** The number of occurrences of the byte [c] in [s]. *)
Fixpoint countByte (s : string) (c : ascii) : nat :=
  match s with
  | EmptyString => 0
  | String d s' => (if Ascii.eqb d c then 1 else 0) + countByte s' c
  end.







(** * Properties *)

(** Case analysis on every test, or every scrutinee, of the goal. *)
Ltac case_ifs :=
  repeat match goal with
         | |- context [if ?x then _ else _] => destruct x
         end.

Ltac case_matches :=
  repeat match goal with
         | |- context [match ?x with _ => _ end] => destruct x
         end.

(** ** Strings *)

Lemma length_append (s t : string) :
  String.length (s ++ t) = String.length s + String.length t.
Proof. induction s as [|c s IH]; simpl; [reflexivity | now rewrite IH]. Qed.

Lemma append_empty_r (s : string) : s ++ EmptyString = s.
Proof. induction s as [|c s IH]; simpl; [reflexivity | now rewrite IH]. Qed.

Lemma append_assoc (s t u : string) : (s ++ t) ++ u = s ++ (t ++ u).
Proof. induction s as [|c s IH]; simpl; [reflexivity | now rewrite IH]. Qed.

(** ** The reader *)

Lemma ReadBytes_spec (delim : ascii) (r : Reader) :
  forall b err r', ReadBytes r delim = (b, err, r') ->
    r = b ++ r'
    /\ (err = None /\ b <> EmptyString \/ err = Some io_EOF /\ r' = EmptyString).
Proof.
  induction r as [|c r IH]; simpl; intros b err r' H.
  - inversion H; subst. split; [reflexivity | right; split; reflexivity].
  - destruct (Ascii.eqb c delim).
    + inversion H; subst. split; [reflexivity | left; split; [reflexivity | discriminate]].
    + destruct (ReadBytes r delim) as [[b0 err0] r0] eqn:E.
      inversion H; subst. destruct (IH _ _ _ eq_refl) as [-> Hc].
      split; [reflexivity |].
      destruct Hc as [[-> _] | [-> ->]];
        [left; split; [reflexivity | discriminate] | right; split; reflexivity].
Qed.

(** The passes of [decodeLine]'s loop stay within the bound, and the buffer
    grows by no more than the reader shrinks. *)
Lemma decodeLine_loop_total (fuel : nat) :
  forall r buf, String.length r + 2 <= fuel ->
    exists buf' r',
      decodeLine_loop fuel r buf false = Some (LineBuf buf' r')
      /\ String.length buf' + String.length r'
         <= String.length buf + String.length r.
Proof.
  induction fuel as [|fuel IH]; intros r buf Hf; [lia |].
  simpl. destruct (ReadBytes r LF) as [[b err] r1] eqn:E.
  destruct (ReadBytes_spec _ _ _ _ _ E) as [Hr Hc].
  assert (Hlen : String.length r = String.length b + String.length r1)
    by (rewrite Hr at 1; apply length_append).
  set (b' := stripSpace b).
  assert (Hb' : String.length b' <= String.length b).
  { subst b'. destruct b as [|c b0]; [simpl; lia |].
    simpl. destruct (Ascii.eqb c " "); simpl; lia. }
  destruct Hc as [[-> Hb] | [-> ->]]; simpl.
  - destruct b as [|c0 b0]; [congruence |]. simpl (String.length _ =? 0)%nat. cbv iota.
    destruct r1 as [|c r1']; simpl.
    + exists (buf ++ b'), EmptyString. split; [reflexivity |].
      rewrite length_append. simpl in *. lia.
    + destruct (Ascii.eqb c " "); simpl.
      * destruct (IH (String c r1') (buf ++ b')) as (buf2 & r2 & H2 & L2);
          [simpl in *; lia |].
        exists buf2, r2. split; [exact H2 |].
        rewrite length_append in L2. simpl in *. lia.
      * exists (buf ++ b'), (String c r1'). split; [reflexivity |].
        rewrite length_append. simpl in *. lia.
  - destruct (String.length b =? 0)%nat eqn:Eb.
    + destruct fuel as [|fuel]; [lia |]. simpl.
      exists buf, EmptyString. split; [reflexivity | simpl; lia].
    + exists (buf ++ b'), EmptyString. split; [reflexivity |].
      rewrite length_append. simpl in *. lia.
Qed.

Lemma cutByte_length (sep : ascii) (s : string) :
  forall p0 p1, cutByte sep s = Some (p0, p1) -> s <> EmptyString.
Proof. destruct s; simpl; intros; congruence. Qed.

(** [decodeLine] returns on every stream; its error is nil or the bad-line
    error, never [io.EOF]; and a call that succeeds has consumed bytes. *)
Lemma decodeLine_total (r : Reader) (removeCRLF : bool) :
  exists key value err r',
    decodeLine r removeCRLF = Some (key, value, err, r')
    /\ String.length r' <= String.length r
    /\ (err = None /\ String.length r' < String.length r
        \/ err = Some errBadLine /\ key = EmptyString /\ value = EmptyString).
Proof.
  unfold decodeLine.
  destruct (decodeLine_loop_total (String.length r + 2) r EmptyString (le_n _))
    as (buf & r' & -> & L). simpl in L.
  unfold splitLine, SplitN2.
  destruct (cutByte ":" buf) as [[p0 p1]|] eqn:E.
  - pose proof (cutByte_length _ _ _ _ E) as Hne.
    assert (0 < String.length buf) by (destruct buf; [congruence | simpl; lia]).
    destruct removeCRLF; simpl; do 4 eexists;
      (split; [reflexivity | split; [lia | left; split; [reflexivity | lia]]]).
  - do 4 eexists. split; [reflexivity | split; [lia | right; repeat split]].
Qed.

(** ** The event loop *)

Lemma eventBody_on_error (err : option error) (e : Event) :
  eventBody EmptyString EmptyString err e = Continue e err.
Proof. reflexivity. Qed.

Lemma Parse_20060102_error (value : string) :
  snd (time.Parse_20060102 value) = None
  \/ snd (time.Parse_20060102 value) = Some errTimeParse.
Proof.
  unfold time.Parse_20060102. case_matches; simpl; auto.
Qed.

Lemma decodeDate_error (value : string) :
  snd (decodeDate value) = None \/ snd (decodeDate value) = Some errTimeParse.
Proof.
  unfold decodeDate. destruct (String.length value <? 8)%nat; simpl;
    [now left | apply Parse_20060102_error].
Qed.


(** The bound on the passes of [decodeEvent]'s loop is never reached. *)
Lemma decodeEvent_loop_total (removeCRLF : bool) (fuel : nat) :
  forall r e err,
    match err with None => String.length r + 2 | Some _ => 1 end <= fuel ->
    exists res r',
      decodeEvent_loop fuel r removeCRLF e err = Some (res, r')
      /\ String.length r' <= String.length r.
Proof.
  induction fuel as [|fuel IH]; intros r e err Hf; [destruct err; lia |].
  simpl. destruct err as [er|].
  - destruct (error_eqb er io_EOF); do 2 eexists; split; reflexivity || lia.
  - destruct (decodeLine_total r removeCRLF)
      as (key & value & err1 & r1 & -> & L1 & Hc).
    destruct Hc as [[-> L] | [-> [-> ->]]].
    + destruct (eventBody key value None e) as [e'|e' err'] eqn:B.
      * do 2 eexists; split; [reflexivity | lia].
      * destruct (IH r1 e' err') as (res & r' & H & L');
          [destruct err'; lia |].
        exists res, r'. split; [exact H | lia].
    + rewrite eventBody_on_error.
      destruct (IH r1 e (Some errBadLine)) as (res & r' & H & L'); [lia |].
      exists res, r'. split; [exact H | lia].
Qed.

Lemma decodeEvent_total (r : Reader) (removeCRLF : bool) :
  exists res r',
    decodeEvent r removeCRLF = Some (res, r')
    /\ String.length r' <= String.length r.
Proof. apply decodeEvent_loop_total. lia. Qed.

(** ** The top-level loop *)

Lemma beginBlock_total (key value : string) (r : Reader) (removeCRLF : bool)
    (c : option Calendar) :
  exists res,
    beginBlock key value r removeCRLF c = Some res
    /\ forall c' r', res = inl (c', r') -> String.length r' <= String.length r.
Proof.
  unfold beginBlock.
  destruct (key =? "BEGIN").
  2:{ eexists; split; [reflexivity |]. intros c' r' H; inversion H; lia. }
  destruct (match c with
            | Some c0 => inl c0
            | None => if negb (value =? "VCALENDAR")
                      then inr errNoVCalendar else inl newCalendar
            end) as [c0|er].
  2:{ eexists; split; [reflexivity |]. intros c' r' H; inversion H. }
  destruct (value =? "VEVENT").
  2:{ eexists; split; [reflexivity |]. intros c' r' H; inversion H; lia. }
  destruct (decodeEvent_total r removeCRLF) as (res & r1 & -> & L).
  destruct res as [e|er]; eexists; (split; [reflexivity |]);
    intros c' r' H; inversion H; subst; lia.
Qed.

(** [decode] returns, with a calendar, an error or a panic, on every stream. *)
Lemma decode_loop_total (removeCRLF : bool) (fuel : nat) :
  forall r c, String.length r + 1 <= fuel ->
    exists o, decode_loop fuel r removeCRLF c = Some o.
Proof.
  induction fuel as [|fuel IH]; intros r c Hf; [lia |].
  simpl.
  destruct (decodeLine_total r removeCRLF)
    as (key & value & err1 & r1 & -> & L1 & Hc).
  destruct Hc as [[-> L] | [-> _]]; [| eexists; reflexivity].
  destruct (beginBlock_total key value r1 removeCRLF c) as (res & -> & Hres).
  destruct res as [[c' r']|er]; [| eexists; reflexivity].
  destruct ((key =? "END") && (value =? "VCALENDAR")); [eexists; reflexivity |].
  apply IH. specialize (Hres c' r' eq_refl). lia.
Qed.

Lemma decode_total (r : Reader) (removeCRLF : bool) :
  exists o, decode r removeCRLF = Some o.
Proof. apply decode_loop_total. lia. Qed.

(** ** The minimal calendar *)

(** C1: decoding the eight lines BEGIN:VCALENDAR, BEGIN:VEVENT, UID:1@test,
    DTSTART:20230101, DTEND:20230102, SUMMARY:Test, END:VEVENT, END:VCALENDAR
    returns, without error, a calendar with exactly one event, whose UID is
    1@test, Start 2023-01-01, End 2023-01-02 and Summary Test. *)
Theorem decode_minimal_calendar :
  Decode minimal =
  Some (Ok (mkCalendar
              [mkEvent "1@test" (time.mkTime 2023 1 1) (time.mkTime 2023 1 2)
                       "Test" EmptyString EmptyString])).
Proof. vm_compute. reflexivity. Qed.

(** ** [UnescapeText] *)

(** C7: [UnescapeText] maps A\;B\,C to A;B,C, maps Line1\nLine2 (a backslash
    and the letter n between the words) to "Line1 Line2", and maps a&nbspb to
    "a b". *)
Theorem UnescapeText_examples :
  UnescapeText "A\;B\,C" = "A;B,C"
  /\ UnescapeText "Line1\nLine2" = "Line1 Line2"
  /\ UnescapeText "a&nbspb" = "a b".
Proof. repeat split; reflexivity. Qed.

Lemma HasPrefix_length (p : string) :
  forall s, HasPrefix s p = true -> String.length p <= String.length s.
Proof.
  induction p as [|c p IH]; intros [|d s]; simpl; intros H; try lia; try discriminate.
  apply andb_prop in H. destruct H as [_ H]. apply IH in H. lia.
Qed.

Lemma HasPrefix_append (p : string) :
  forall s, HasPrefix s p = true -> exists t, s = p ++ t.
Proof.
  induction p as [|c p IH]; intros s H.
  - exists s. reflexivity.
  - destruct s as [|d s]; simpl in H; [discriminate |].
    apply andb_prop in H. destruct H as [Hc H].
    apply Ascii.eqb_eq in Hc. subst d.
    destruct (IH s H) as [t ->]. exists t. reflexivity.
Qed.

(** A replacement by a string no longer than the one replaced does not
    lengthen the text. *)
Lemma replaceFrom_length (old new : string) :
  String.length new <= String.length old -> 1 <= String.length old ->
  forall s skip,
    String.length (replaceFrom old new skip s) + Nat.min skip (String.length s)
    <= String.length s.
Proof.
  intros Hn Ho. induction s as [|c s IH]; intros skip; [simpl; lia |].
  cbn [replaceFrom String.length].
  destruct skip as [|k].
  - destruct (HasPrefix (String c s) old) eqn:E.
    + apply HasPrefix_length in E. cbn [String.length] in E.
      rewrite length_append.
      specialize (IH (String.length old - 1)). lia.
    + specialize (IH 0). cbn [String.length]. lia.
  - specialize (IH k). lia.
Qed.

Lemma Replace_length (s old new : string) :
  String.length new <= String.length old -> 1 <= String.length old ->
  String.length (Replace s old new) <= String.length s.
Proof.
  intros Hn Ho. unfold Replace.
  pose proof (replaceFrom_length old new Hn Ho s 0). lia.
Qed.

Lemma UnescapeText_length (s : string) :
  String.length (UnescapeText s) <= String.length s.
Proof.
  unfold UnescapeText.
  repeat (etransitivity; [apply Replace_length; simpl; lia |]).
  apply Nat.le_refl.
Qed.

(** ** Dates *)

(** C5: for a DTSTART or DTEND property whose value has fewer than 8 bytes,
    [decodeDate] gives the zero date and no error; the pass of the event loop
    that handles the property stores the zero date in Start (in End for
    DTEND) with [err] nil, so the loop goes on to the next line; and decoding
    a calendar whose event has DTSTART:2023 succeeds with Start unset. *)
Theorem short_date_left_unset (value : string) :
  String.length value < 8 ->
  decodeDate value = (time.zero, None)
  /\ (forall key err e, fixKey key = "DTSTART" ->
        eventBody key value err e = Continue (setStart e time.zero) None)
  /\ (forall key err e, fixKey key = "DTEND" ->
        eventBody key value err e = Continue (setEnd e time.zero) None)
  /\ (forall r removeCRLF key r' fuel e,
        decodeLine r removeCRLF = Some (key, value, None, r') ->
        fixKey key = "DTSTART" \/ fixKey key = "DTEND" ->
        exists e',
          decodeEvent_loop (S fuel) r removeCRLF e None
          = decodeEvent_loop fuel r' removeCRLF e' None
          /\ (fixKey key = "DTSTART" -> Start e' = time.zero)
          /\ (fixKey key = "DTEND" -> End e' = time.zero))
  /\ Decode shortDateCalendar =
     Some (Ok (mkCalendar
                 [mkEvent "1@test" time.zero time.zero
                          EmptyString EmptyString EmptyString])).
Proof.
  intros Hlen.
  assert (Hd : forall v, String.length v < 8 -> decodeDate v = (time.zero, None)).
  { intros v Hv. unfold decodeDate.
    destruct (String.length v <? 8)%nat eqn:E; [reflexivity |].
    apply Nat.ltb_ge in E. lia. }
  assert (Hu : decodeDate (UnescapeText value) = (time.zero, None)).
  { apply Hd. pose proof (UnescapeText_length value). lia. }
  assert (Hs : forall key err e, fixKey key = "DTSTART" ->
             eventBody key value err e = Continue (setStart e time.zero) None).
  { intros key err e Hk. unfold eventBody. rewrite Hk, Hu. reflexivity. }
  assert (He : forall key err e, fixKey key = "DTEND" ->
             eventBody key value err e = Continue (setEnd e time.zero) None).
  { intros key err e Hk. unfold eventBody. rewrite Hk, Hu. reflexivity. }
  split; [apply Hd, Hlen |]. split; [exact Hs |]. split; [exact He |].
  split; [| vm_compute; reflexivity].
  intros r removeCRLF key r' fuel e HL [Hk | Hk].
  - exists (setStart e time.zero). simpl. rewrite HL, (Hs _ _ _ Hk).
    split; [reflexivity |]. split; [reflexivity |].
    intros Hk'. rewrite Hk in Hk'. discriminate.
  - exists (setEnd e time.zero). simpl. rewrite HL, (He _ _ _ Hk).
    split; [reflexivity |]. split; [| reflexivity].
    intros Hk'. rewrite Hk in Hk'. discriminate.
Qed.

Lemma short_date_left_unset_witness :
  String.length "2023" < 8
  /\ decodeDate "2023" = (time.zero, None)
  /\ eventBody "DTSTART" "2023" None newEvent
     = Continue (setStart newEvent time.zero) None.
Proof.
  split; [simpl; lia |].
  destruct (short_date_left_unset "2023") as (H1 & H2 & _); [simpl; lia |].
  split; [exact H1 | apply H2; reflexivity].
Defined.

(** ** Key normalisation *)

Lemma substring_0_0 (s : string) : String.substring 0 0 s = EmptyString.
Proof. destruct s; reflexivity. Qed.

Lemma fixKey_DTSTART (key : string) :
  HasPrefix key "DTSTART" = true -> fixKey key = "DTSTART".
Proof.
  intros H. destruct (HasPrefix_append _ _ H) as [t ->].
  unfold fixKey. simpl. rewrite substring_0_0. reflexivity.
Qed.

Lemma fixKey_DTEND (key : string) :
  HasPrefix key "DTEND" = true -> fixKey key = "DTEND".
Proof.
  intros H. destruct (HasPrefix_append _ _ H) as [t ->].
  unfold fixKey. simpl.
  destruct t as [|c1 [|c2 t]]; simpl; try rewrite substring_0_0; reflexivity.
Qed.

(** C8: in the event loop a key that begins with DTSTART is handled as the
    bare key DTSTART, and a key that begins with DTEND as DTEND: the pass of
    the loop gives the same event and the same [err]; and the event decoded
    from DTSTART;VALUE=DATE:20230505 is the event decoded from
    DTSTART:20230505, with Start 2023-05-05. *)
Theorem date_key_prefix_normalised :
  (forall key value err e, HasPrefix key "DTSTART" = true ->
     eventBody key value err e = eventBody "DTSTART" value err e)
  /\ (forall key value err e, HasPrefix key "DTEND" = true ->
        eventBody key value err e = eventBody "DTEND" value err e)
  /\ decodeEvent (lines ["DTSTART;VALUE=DATE:20230505"; "END:VEVENT"]) true
     = decodeEvent (lines ["DTSTART:20230505"; "END:VEVENT"]) true
  /\ decodeEvent (lines ["DTSTART:20230505"; "END:VEVENT"]) true
     = Some (inl (setStart newEvent (time.mkTime 2023 5 5)), EmptyString).
Proof.
  split; [| split; [| split; vm_compute; reflexivity]].
  - intros key value err e H. unfold eventBody.
    rewrite (fixKey_DTSTART _ H). reflexivity.
  - intros key value err e H. unfold eventBody.
    rewrite (fixKey_DTEND _ H). reflexivity.
Qed.

Lemma date_key_prefix_normalised_witness :
  HasPrefix "DTSTART;VALUE=DATE" "DTSTART" = true
  /\ eventBody "DTSTART;VALUE=DATE" "20230505" None newEvent
     = eventBody "DTSTART" "20230505" None newEvent
  /\ HasPrefix "DTEND;TZID=Europe/Madrid" "DTEND" = true
  /\ eventBody "DTEND;TZID=Europe/Madrid" "20230506T100000" None newEvent
     = eventBody "DTEND" "20230506T100000" None newEvent.
Proof.
  destruct date_key_prefix_normalised as (H1 & H2 & _).
  split; [reflexivity |]. split; [apply H1; reflexivity |].
  split; [reflexivity | apply H2; reflexivity].
Defined.

(** ** Lines without a colon *)

Lemma cutByte_None (sep : ascii) (s : string) :
  (forall i, String.get i s <> Some sep) -> cutByte sep s = None.
Proof.
  induction s as [|c s IH]; intros H; simpl; [reflexivity |].
  destruct (Ascii.eqb c sep) eqn:E.
  - apply Ascii.eqb_eq in E. subst c. exfalso. apply (H 0). reflexivity.
  - rewrite IH; [reflexivity |]. intros i. apply (H (S i)).
Qed.

(** C9: when the logical line assembled from the stream has no colon,
    [decodeLine] fails with the bad-line error; the top-level loop of
    [decode] that reads this line returns the error and no calendar, whatever
    calendar it has built; the event loop that reads it returns the error and
    no event; and an error of the event loop entered at BEGIN:VEVENT is
    returned by [decode].  So is a decode of the one line NOCOLONHERE, at the
    top level and inside an event. *)
Theorem malformed_line_is_fatal :
  (forall r removeCRLF buf r',
     logicalLine r = Some (LineBuf buf r') ->
     (forall i, String.get i buf <> Some ":"%char) ->
     decodeLine r removeCRLF
     = Some (EmptyString, EmptyString, Some errBadLine, r')
     /\ (forall fuel c,
           decode_loop (S fuel) r removeCRLF c = Some (Err errBadLine))
     /\ (forall fuel e,
           decodeEvent_loop (S (S fuel)) r removeCRLF e None
           = Some (inr errBadLine, r')))
  /\ (forall r removeCRLF r1 er r2 fuel c,
        decodeLine r removeCRLF = Some ("BEGIN", "VEVENT", None, r1) ->
        decodeEvent r1 removeCRLF = Some (inr er, r2) ->
        decode_loop (S fuel) r removeCRLF (Some c) = Some (Err er))
  /\ Decode (lines ["NOCOLONHERE"]) = Some (Err errBadLine)
  /\ Decode (lines ["BEGIN:VCALENDAR"; "BEGIN:VEVENT"; "NOCOLONHERE";
                    "END:VEVENT"; "END:VCALENDAR"])
     = Some (Err errBadLine).
Proof.
  split; [| split; [| split; vm_compute; reflexivity]].
  - intros r removeCRLF buf r' HL Hc.
    assert (HD : decodeLine r removeCRLF
                 = Some (EmptyString, EmptyString, Some errBadLine, r')).
    { unfold decodeLine. unfold logicalLine in HL. rewrite HL.
      unfold splitLine, SplitN2. rewrite (cutByte_None _ _ Hc). reflexivity. }
    split; [exact HD |]. split.
    + intros fuel c. simpl. rewrite HD. reflexivity.
    + intros fuel e. cbn [decodeEvent_loop]. rewrite HD.
      rewrite eventBody_on_error. reflexivity.
  - intros r removeCRLF r1 er r2 fuel c HL HE.
    cbn [decode_loop]. rewrite HL. unfold beginBlock.
    change ("BEGIN" =? "BEGIN") with true.
    change ("VEVENT" =? "VEVENT") with true. cbv iota.
    rewrite HE. reflexivity.
Qed.

Lemma malformed_line_is_fatal_witness :
  logicalLine (lines ["NOCOLONHERE"]) = Some (LineBuf (lines ["NOCOLONHERE"]) EmptyString)
  /\ decodeLine (lines ["NOCOLONHERE"]) true
     = Some (EmptyString, EmptyString, Some errBadLine, EmptyString)
  /\ decode_loop 1 (lines ["BEGIN:VEVENT"; "NOCOLONHERE"]) true (Some newCalendar)
     = Some (Err errBadLine).
Proof.
  destruct malformed_line_is_fatal as (H1 & H2 & _).
  split; [reflexivity |]. split.
  - apply (H1 (lines ["NOCOLONHERE"]) true (lines ["NOCOLONHERE"]) EmptyString).
    + reflexivity.
    + intros i. do 13 (destruct i as [|i]; [simpl; discriminate |]).
      simpl. discriminate.
  - apply (H2 _ true (lines ["NOCOLONHERE"]) errBadLine EmptyString 0 newCalendar);
      reflexivity.
Defined.

(** ** END:VCALENDAR before any BEGIN *)

(** C10: when the first pair that the top-level loop reads is END with the
    value VCALENDAR, the loop is left with the calendar pointer still nil, and
    the sort after the loop dereferences it: the call panics, it returns
    neither a calendar nor an error. *)
Theorem end_before_begin_panics (r : Reader) (removeCRLF : bool) (r' : Reader) :
  decodeLine r removeCRLF = Some ("END", "VCALENDAR", None, r') ->
  decode r removeCRLF = Some Panic.
Proof.
  intros H. unfold decode. rewrite Nat.add_1_r. cbn [decode_loop].
  rewrite H. reflexivity.
Qed.

Lemma end_before_begin_panics_witness :
  decodeLine (lines ["END:VCALENDAR"]) true
  = Some ("END", "VCALENDAR", None, EmptyString)
  /\ Decode (lines ["END:VCALENDAR"]) = Some Panic.
Proof.
  split; [reflexivity |].
  apply (end_before_begin_panics _ true EmptyString). reflexivity.
Defined.

(** ** Raw lines and the logical line *)

Lemma ReadBytes_line (s rest : string) :
  containsByte s LF = false ->
  ReadBytes (s ++ nl ++ rest) LF = (s ++ nl, None, rest).
Proof.
  induction s as [|c s IH]; intros H; [reflexivity |].
  cbn [containsByte] in H. apply orb_false_elim in H. destruct H as [Hc Hs].
  cbn [append ReadBytes]. rewrite Hc, (IH Hs). reflexivity.
Qed.

Lemma length_line_nonzero (s : string) :
  (String.length (s ++ nl) =? 0)%nat = false.
Proof. destruct s; reflexivity. Qed.

(** A raw line that is not followed by a space ends the logical line. *)
Lemma decodeLine_loop_break (fuel : nat) (s rest buf : string) :
  containsByte s LF = false -> HasPrefix rest " " = false ->
  decodeLine_loop (S fuel) (s ++ nl ++ rest) buf false
  = Some (LineBuf (buf ++ stripSpace (s ++ nl)) rest).
Proof.
  intros Hs Hr. cbn [decodeLine_loop].
  rewrite (ReadBytes_line _ _ Hs). cbv iota beta.
  rewrite length_line_nonzero.
  destruct rest as [|c rest]; [reflexivity |].
  cbn [HasPrefix] in Hr. cbn [Peek1].
  destruct (Ascii.eqb c " "); [simpl in Hr; discriminate Hr | reflexivity].
Qed.

(** A raw line that is followed by a space is joined with the next one; its
    terminator is in the buffer already. *)
Lemma decodeLine_loop_continue (fuel : nat) (s rest buf : string) :
  containsByte s LF = false ->
  decodeLine_loop (S fuel) (s ++ nl ++ String " " rest) buf false
  = decodeLine_loop fuel (String " " rest) (buf ++ stripSpace (s ++ nl)) false.
Proof.
  intros Hs. cbn [decodeLine_loop].
  rewrite (ReadBytes_line _ _ Hs). cbv iota beta.
  rewrite length_line_nonzero. reflexivity.
Qed.

(** What the line reader makes of a line folded once, and of the same line
    unfolded: the folded one keeps the line feed of its first raw line. *)
Lemma folded_line_keeps_line_feed (s1 s2 rest : string) :
  containsByte s1 LF = false -> containsByte s2 LF = false ->
  HasPrefix rest " " = false ->
  logicalLine (s1 ++ nl ++ String " " (s2 ++ nl ++ rest))
  = Some (LineBuf (stripSpace (s1 ++ nl) ++ s2 ++ nl) rest)
  /\ (HasPrefix s2 " " = false ->
      logicalLine (s1 ++ nl ++ s2 ++ nl ++ rest)
      = Some (LineBuf (stripSpace (s1 ++ nl)) (s2 ++ nl ++ rest))).
Proof.
  intros H1 H2 Hr. unfold logicalLine. split.
  - rewrite Nat.add_comm. cbn [Nat.add].
    rewrite (decodeLine_loop_continue _ _ _ _ H1).
    change (String " " (s2 ++ nl ++ rest)) with (String " " s2 ++ nl ++ rest).
    rewrite decodeLine_loop_break;
      [reflexivity | simpl; exact H2 | exact Hr].
  - intros Hs2. rewrite Nat.add_comm. cbn [Nat.add].
    rewrite decodeLine_loop_break; [reflexivity | exact H1 |].
    destruct s2 as [|c s2]; [reflexivity | exact Hs2].
Qed.

(** A blank raw line is a logical line of its own, made of a line feed, and
    it has no colon. *)
Lemma blank_line_is_bad_line (rest : string) (removeCRLF : bool) :
  HasPrefix rest " " = false ->
  decodeLine (nl ++ rest) removeCRLF
  = Some (EmptyString, EmptyString, Some errBadLine, rest).
Proof.
  intros Hr. unfold decodeLine. rewrite Nat.add_comm. cbn [Nat.add].
  change (nl ++ rest) with (EmptyString ++ nl ++ rest).
  rewrite decodeLine_loop_break; [reflexivity | reflexivity | exact Hr].
Qed.

(** In the variant that reads with [ReadLine], a blank raw line is skipped:
    the call gives what it gives on the stream without that line. *)
Lemma ReadLineVariant_blank_line_skipped (rest : string) :
  ReadLineVariant.decodeLine (nl ++ rest) = ReadLineVariant.decodeLine rest.
Proof.
  assert (H : ReadLineVariant.ReadLine (nl ++ rest)
              = (EmptyString, false, None, rest)) by reflexivity.
  unfold ReadLineVariant.decodeLine.
  replace (String.length (nl ++ rest) + 1) with (S (String.length rest + 1))
    by (simpl; lia).
  cbn [ReadLineVariant.decodeLine_loop]. rewrite H. reflexivity.
Qed.

(** A raw line without a colon, not followed by a space, is a logical line
    without a colon: the line reader fails, and so does a decode that reads
    it first. *)
Lemma line_without_colon_fails (s rest : string) (removeCRLF : bool) :
  containsByte s ":" = false -> containsByte s LF = false ->
  HasPrefix rest " " = false ->
  decodeLine (s ++ nl ++ rest) removeCRLF
  = Some (EmptyString, EmptyString, Some errBadLine, rest)
  /\ decode (s ++ nl ++ rest) removeCRLF = Some (Err errBadLine).
Proof.
  intros Hc Hs Hr.
  assert (HD : decodeLine (s ++ nl ++ rest) removeCRLF
               = Some (EmptyString, EmptyString, Some errBadLine, rest)).
  { unfold decodeLine. rewrite Nat.add_comm. cbn [Nat.add].
    rewrite (decodeLine_loop_break _ _ _ _ Hs Hr). cbn [append].
    unfold splitLine, SplitN2.
    assert (HN : cutByte ":" (stripSpace (s ++ nl)) = None).
    { assert (HS : cutByte ":" (s ++ nl) = None).
      { clear Hs. induction s as [|c s IH]; [reflexivity |].
        cbn [containsByte] in Hc. apply orb_false_elim in Hc.
        destruct Hc as [Hc1 Hc2]. cbn [append cutByte].
        rewrite Hc1, (IH Hc2). reflexivity. }
      destruct s as [|c s]; [reflexivity |].
      cbn [append stripSpace]. destruct (Ascii.eqb c " "); [| exact HS].
      cbn [append cutByte] in HS.
      destruct (Ascii.eqb c ":"); [discriminate HS |].
      destruct (cutByte ":" (s ++ nl)) as [[p0 p1]|]; [discriminate HS | reflexivity]. }
    rewrite HN. reflexivity. }
  split; [exact HD |].
  unfold decode. rewrite Nat.add_1_r. cbn [decode_loop]. rewrite HD. reflexivity.
Qed.

(** ** End of stream inside an event *)



(** C2 (the code departs from the claim): at the end of the stream
    [decodeLine] returns the bad-line error, not [io.EOF], so the event loop
    that reaches the end of the stream after UID:1@test and SUMMARY:Test
    returns that error and no event, and [Decode] of the truncated calendar
    returns the error.  (In the variant of the file that reads with
    [ReadLine], [decodeLine] reports the end of the stream as
    [io.ErrUnexpectedEOF].) *)
Theorem eof_inside_event_is_error :
  decodeLine EmptyString true
  = Some (EmptyString, EmptyString, Some errBadLine, EmptyString)
  /\ decodeEvent (lines ["UID:1@test"; "SUMMARY:Test"]) true
     = Some (inr errBadLine, EmptyString)
  /\ Decode truncatedEvent = Some (Err errBadLine)
  /\ ReadLineVariant.decodeLine EmptyString
     = Some (EmptyString, EmptyString, Some io_ErrUnexpectedEOF, EmptyString).
Proof. repeat split; vm_compute; reflexivity. Qed.

(** ** Blank lines *)

(** C3 (the code departs from the claim): a blank raw line read by
    [ReadBytes] is the one byte of its line feed, so the length test does not
    skip it; it becomes a logical line without a colon.  [decodeLine] fails
    on a blank line before A:1 and [Decode] fails on a calendar with a blank
    line between two properties, while the same streams without the blank
    line decode; the variant of the file that reads with [ReadLine] skips
    the blank line. *)
Theorem blank_line_is_not_skipped :
  decodeLine (lines [EmptyString; "A:1"]) true
  = Some (EmptyString, EmptyString, Some errBadLine, lines ["A:1"])
  /\ decodeLine (lines ["A:1"]) true = Some ("A", "1", None, EmptyString)
  /\ Decode (lines ["BEGIN:VCALENDAR"; EmptyString; "END:VCALENDAR"])
     = Some (Err errBadLine)
  /\ Decode (lines ["BEGIN:VCALENDAR"; "END:VCALENDAR"])
     = Some (Ok (mkCalendar []))
  /\ ReadLineVariant.decodeLine (lines [EmptyString; "A:1"])
     = Some ("A", "1", None, EmptyString).
Proof. repeat split; vm_compute; reflexivity. Qed.

(** ** Folded lines *)

(** C4 (the code departs from the claim): [ReadBytes] returns each raw line
    with its line feed, and the trimming removes line feeds at the two ends of
    the key and of the value only.  The value of SUMMARY:Hel folded before lo
    is Hel, a line feed, lo, where the unfolded line gives Hello; the decoded
    Summary is "Hel lo" where the unfolded one is "Hello"; the variant of the
    file that reads with [ReadLine] gives Hello for the folded line. *)
Theorem folded_value_keeps_line_feed :
  decodeLine (lines ["SUMMARY:Hel"; " lo"]) true
  = Some ("SUMMARY", "Hel" ++ nl ++ "lo", None, EmptyString)
  /\ decodeLine (lines ["SUMMARY:Hello"]) true
     = Some ("SUMMARY", "Hello", None, EmptyString)
  /\ Decode foldedSummary
     = Some (Ok (mkCalendar [setSummary newEvent "Hel lo"]))
  /\ Decode unfoldedSummary
     = Some (Ok (mkCalendar [setSummary newEvent "Hello"]))
  /\ ReadLineVariant.decodeLine (lines ["SUMMARY:Hel"; " lo"])
     = Some ("SUMMARY", "Hello", None, EmptyString).
Proof. repeat split; vm_compute; reflexivity. Qed.

(** ** The order of the events *)

Lemma Before_true (t u : time.Time) : time.Before t u = true <-> lexLt t u.
Proof.
  unfold time.Before, lexLt.
  rewrite !orb_true_iff, !andb_true_iff, !orb_true_iff, !andb_true_iff,
    !Z.ltb_lt, !Z.eqb_eq. tauto.
Qed.

Lemma Before_false (t u : time.Time) : time.Before t u = false <-> ~ lexLt t u.
Proof. rewrite <- Before_true. symmetry. apply not_true_iff_false. Qed.

Lemma Before_asym (t u : time.Time) :
  time.Before t u = true -> time.Before u t = false.
Proof. rewrite Before_true, Before_false. unfold lexLt. lia. Qed.





Lemma sinkLeft_Permutation (x : Event) (before : list Event) :
  Permutation (sinkLeft x before) (x :: before).
Proof.
  induction before as [|y before IH]; simpl; [reflexivity |].
  destruct (less x y); [| reflexivity].
  rewrite IH. apply perm_swap.
Qed.



Lemma fold_sinkLeft_Permutation (l : list Event) :
  forall before,
    Permutation (fold_left (fun before x => sinkLeft x before) l before)
                (rev l ++ before).
Proof.
  induction l as [|x l IH]; simpl; intros before; [reflexivity |].
  rewrite IH, <- app_assoc. apply Permutation_app_head. simpl.
  apply sinkLeft_Permutation.
Qed.




Lemma sort_Sort_Permutation (l : list Event) : Permutation (sort_Sort l) l.
Proof.
  unfold sort_Sort. rewrite <- Permutation_rev, fold_sinkLeft_Permutation.
  rewrite app_nil_r. symmetry. apply Permutation_rev.
Qed.



(** An event with an unset Start is less than one with a set Start, and not
    the other way round. *)
Lemma less_unset_set (a b : Event) :
  time.IsZero (Start a) = true -> time.IsZero (Start b) = false ->
  less a b = true /\ less b a = false.
Proof. unfold less. intros -> ->. split; reflexivity. Qed.

(** [Less] is true whenever the first event has an unset Start, also when
    the second has. *)
Lemma less_unset_any (a b : Event) :
  time.IsZero (Start a) = true -> less a b = true.
Proof. unfold less. intros ->. reflexivity. Qed.

(** C6 (the code departs from the claim): [Less] returns true as soon as the
    first event has an unset Start, without a look at the second; for the two
    events of a calendar that has no DTSTART in either, [Less(0, 1)] and
    [Less(1, 0)] are both true, and so is [Less(0, 0)].  The sort then swaps
    the two: the event read second comes first. *)
Theorem unset_starts_less_both_ways :
  let a := setUID newEvent "a" in
  let b := setUID newEvent "b" in
  eventList_Less [a; b] 0 1 = Some true
  /\ eventList_Less [a; b] 1 0 = Some true
  /\ eventList_Less [a; b] 0 0 = Some true
  /\ Decode twoUnset = Some (Ok (mkCalendar [b; a])).
Proof. repeat split; vm_compute; reflexivity. Qed.

(** * Further properties of the decoder *)

(** ** What [decode] returns, and when *)

(** X1: a BEGIN pair read while no calendar has been started must have the
    value VCALENDAR: with any other value the loop of [decode] returns the
    error "didn't find BEGIN:VCALENDAR", and so does [decode] when the pair
    is the first of the stream. *)
Theorem first_begin_must_be_VCALENDAR (r : Reader) (removeCRLF : bool)
    (value : string) (r' : Reader) :
  decodeLine r removeCRLF = Some ("BEGIN", value, None, r') ->
  value <> "VCALENDAR" ->
  (forall fuel, decode_loop (S fuel) r removeCRLF None = Some (Err errNoVCalendar))
  /\ decode r removeCRLF = Some (Err errNoVCalendar).
Proof.
  intros HL Hv.
  assert (H : forall fuel,
             decode_loop (S fuel) r removeCRLF None = Some (Err errNoVCalendar)).
  { intros fuel. cbn [decode_loop]. rewrite HL. unfold beginBlock.
    change ("BEGIN" =? "BEGIN") with true. cbv iota.
    apply String.eqb_neq in Hv. rewrite Hv. reflexivity. }
  split; [exact H |]. unfold decode. rewrite Nat.add_1_r. apply H.
Qed.

Lemma first_begin_must_be_VCALENDAR_witness :
  decodeLine (lines ["BEGIN:VEVENT"; "UID:1"]) true
  = Some ("BEGIN", "VEVENT", None, lines ["UID:1"])
  /\ "VEVENT" <> "VCALENDAR"
  /\ decode (lines ["BEGIN:VEVENT"; "UID:1"]) true = Some (Err errNoVCalendar).
Proof.
  split; [reflexivity |]. split; [discriminate |].
  apply (first_begin_must_be_VCALENDAR _ true "VEVENT" (lines ["UID:1"]));
    [reflexivity | discriminate].
Defined.

Lemma beginBlock_keeps_calendar (key value : string) (r : Reader)
    (removeCRLF : bool) (c : Calendar) (c' : option Calendar) (r' : Reader) :
  beginBlock key value r removeCRLF (Some c) = Some (inl (c', r')) ->
  exists c1, c' = Some c1.
Proof.
  unfold beginBlock. destruct (key =? "BEGIN").
  - destruct (value =? "VEVENT").
    + destruct (decodeEvent r removeCRLF) as [[[e|er] r1]|]; intros H;
        inversion H; subst. eexists; reflexivity.
    + intros H; inversion H; subst. eexists; reflexivity.
  - intros H; inversion H; subst. eexists; reflexivity.
Qed.

Lemma decode_loop_no_panic (removeCRLF : bool) (fuel : nat) :
  forall r c, decode_loop fuel r removeCRLF (Some c) <> Some Panic.
Proof.
  induction fuel as [|fuel IH]; intros r c; [discriminate |].
  cbn [decode_loop].
  destruct (decodeLine r removeCRLF) as [[[[key value] [er|]] r1]|];
    try discriminate.
  destruct (beginBlock key value r1 removeCRLF (Some c)) as [[[c1 r2]|er]|] eqn:B;
    try discriminate.
  destruct (beginBlock_keeps_calendar _ _ _ _ _ _ _ B) as [c2 ->].
  destruct ((key =? "END") && (value =? "VCALENDAR")); [discriminate | apply IH].
Qed.

(** X2: once a calendar has been started the loop of [decode] cannot panic;
    in particular a [decode] whose first pair is a BEGIN does not panic: it
    returns a calendar or an error. *)
Theorem no_panic_after_begin (r : Reader) (removeCRLF : bool)
    (value : string) (r' : Reader) :
  decodeLine r removeCRLF = Some ("BEGIN", value, None, r') ->
  (forall fuel r0 c, decode_loop fuel r0 removeCRLF (Some c) <> Some Panic)
  /\ exists o, decode r removeCRLF = Some o /\ o <> Panic.
Proof.
  intros HL. split; [intros fuel r0 c; apply decode_loop_no_panic |].
  destruct (decode_total r removeCRLF) as [o Ho]. exists o. split; [exact Ho |].
  intros ->. revert Ho. unfold decode. rewrite Nat.add_1_r.
  cbn [decode_loop]. rewrite HL.
  destruct (beginBlock "BEGIN" value r' removeCRLF None) as [[[c1 r2]|er]|] eqn:B;
    try discriminate.
  change ("BEGIN" =? "END") with false. cbn [andb].
  destruct c1 as [c1|]; [apply decode_loop_no_panic |].
  exfalso. revert B. unfold beginBlock.
  change ("BEGIN" =? "BEGIN") with true. cbv iota.
  destruct (negb (value =? "VCALENDAR")); [discriminate |].
  destruct (value =? "VEVENT");
    [destruct (decodeEvent r' removeCRLF) as [[[e|er] r3]|] |]; discriminate.
Qed.

Lemma no_panic_after_begin_witness :
  decodeLine (lines ["BEGIN:VCALENDAR"; "END:VCALENDAR"]) true
  = Some ("BEGIN", "VCALENDAR", None, lines ["END:VCALENDAR"])
  /\ exists o, decode (lines ["BEGIN:VCALENDAR"; "END:VCALENDAR"]) true = Some o
               /\ o <> Panic.
Proof.
  split; [reflexivity |].
  apply (no_panic_after_begin _ true "VCALENDAR" (lines ["END:VCALENDAR"])).
  reflexivity.
Defined.







(** ** Trimming *)

Lemma TrimLeft_fixed (cutset s : string) :
  firstIn cutset s = false -> TrimLeft s cutset = s.
Proof. destruct s as [|c s]; simpl; [reflexivity | intros ->; reflexivity]. Qed.

Lemma TrimLeft_length (cutset s : string) :
  String.length (TrimLeft s cutset) <= String.length s.
Proof.
  induction s as [|c s IH]; simpl; [lia |].
  destruct (inCutset cutset c); simpl; lia.
Qed.

Lemma TrimRight_length (cutset s : string) :
  String.length (TrimRight s cutset) <= String.length s.
Proof.
  induction s as [|c s IH]; simpl; [lia |].
  destruct (TrimRight s cutset); [destruct (inCutset cutset c) |]; simpl in *; lia.
Qed.

Lemma TrimLeft_fixed_inv (cutset s : string) :
  String.length (TrimLeft s cutset) = String.length s -> firstIn cutset s = false.
Proof.
  destruct s as [|c s]; simpl; [reflexivity |].
  destruct (inCutset cutset c); [| reflexivity].
  pose proof (TrimLeft_length cutset s). lia.
Qed.

Lemma TrimRight_fixed (cutset s : string) :
  lastIn cutset s = false -> TrimRight s cutset = s.
Proof.
  induction s as [|c s IH]; [reflexivity |].
  destruct s as [|d s].
  - simpl. intros ->. reflexivity.
  - intros H. change (lastIn cutset (String c (String d s)))
      with (lastIn cutset (String d s)) in H.
    change (TrimRight (String c (String d s)) cutset)
      with (match TrimRight (String d s) cutset with
            | EmptyString =>
                if inCutset cutset c then EmptyString else String c EmptyString
            | String x t => String c (String x t)
            end).
    rewrite (IH H). reflexivity.
Qed.

Lemma TrimRight_fixed_inv (cutset s : string) :
  TrimRight s cutset = s -> lastIn cutset s = false.
Proof.
  induction s as [|c s IH]; [reflexivity |].
  destruct s as [|d s].
  - simpl. destruct (inCutset cutset c); [intros H; discriminate H | reflexivity].
  - intros H. change (lastIn cutset (String c (String d s)))
      with (lastIn cutset (String d s)).
    apply IH.
    change (TrimRight (String c (String d s)) cutset)
      with (match TrimRight (String d s) cutset with
            | EmptyString =>
                if inCutset cutset c then EmptyString else String c EmptyString
            | String x t => String c (String x t)
            end) in H.
    destruct (TrimRight (String d s) cutset) as [|x t] eqn:E.
    + destruct (inCutset cutset c); inversion H.
    + inversion H. reflexivity.
Qed.

(** A text is left as it is by [Trim] exactly when neither its first nor its
    last byte is in the cutset. *)
Lemma Trim_fixed (cutset s : string) :
  Trim s cutset = s <-> firstIn cutset s = false /\ lastIn cutset s = false.
Proof.
  unfold Trim. split.
  - intros H.
    assert (HL : firstIn cutset s = false).
    { apply TrimLeft_fixed_inv.
      pose proof (TrimRight_length cutset (TrimLeft s cutset)) as H1.
      pose proof (TrimLeft_length cutset s) as H2.
      rewrite H in H1. lia. }
    split; [exact HL |].
    rewrite (TrimLeft_fixed _ _ HL) in H. apply TrimRight_fixed_inv, H.
  - intros [HL HR]. rewrite (TrimLeft_fixed _ _ HL). apply TrimRight_fixed, HR.
Qed.

Lemma TrimRight_line (s : string) :
  TrimRight (s ++ nl) crlfCutset = TrimRight s crlfCutset.
Proof.
  induction s as [|c s IH]; [reflexivity |].
  cbn [append TrimRight]. rewrite IH. reflexivity.
Qed.

Lemma inCutset_space (c : ascii) :
  inCutset " " c = true -> inCutset crlfCutset c = true.
Proof. simpl. intros H. rewrite orb_false_r in H. rewrite H. reflexivity. Qed.

Lemma firstIn_space (s : string) :
  firstIn crlfCutset s = false -> firstIn " " s = false.
Proof.
  destruct s as [|c s]; [reflexivity |]. cbn [firstIn]. intros H.
  destruct (inCutset " " c) eqn:E; [| reflexivity].
  apply inCutset_space in E. congruence.
Qed.

Lemma lastIn_space (s : string) :
  lastIn crlfCutset s = false -> lastIn " " s = false.
Proof.
  induction s as [|c s IH]; [reflexivity |].
  destruct s as [|d s]; [| exact IH].
  cbn [lastIn]. intros H.
  destruct (inCutset " " c) eqn:E; [| reflexivity].
  apply inCutset_space in E. congruence.
Qed.

Lemma lastIn_line (s : string) : lastIn " " (s ++ nl) = false.
Proof.
  induction s as [|c s IH]; [reflexivity |].
  cbn [append]. destruct s as [|d s]; [reflexivity | exact IH].
Qed.

Lemma cutByte_at_colon (k t : string) :
  containsByte k ":" = false -> cutByte ":" (k ++ ":" ++ t) = Some (k, t).
Proof.
  induction k as [|c k IH]; intros H; [reflexivity |].
  cbn [containsByte] in H. apply orb_false_elim in H. destruct H as [Hc Hk].
  cbn [append cutByte]. rewrite Hc.
  change (String ":" t) with (":" ++ t). rewrite (IH Hk). reflexivity.
Qed.

Lemma containsByte_append (s t : string) (c : ascii) :
  containsByte (s ++ t) c = containsByte s c || containsByte t c.
Proof.
  induction s as [|d s IH]; [reflexivity |].
  cbn [append containsByte]. rewrite IH. apply orb_assoc.
Qed.

(** ** A well-formed line *)

(** [decodeLine] on a raw line key:value in its two modes. *)
Lemma decodeLine_pair (k v rest : string) :
  containsByte k ":" = false ->
  containsByte k LF = false -> containsByte v LF = false ->
  Trim k crlfCutset = k -> Trim v crlfCutset = v ->
  HasPrefix rest " " = false ->
  decodeLine (k ++ ":" ++ v ++ nl ++ rest) true = Some (k, v, None, rest)
  /\ decodeLine (k ++ ":" ++ v ++ nl ++ rest) false
     = Some (k, v ++ nl, None, rest).
Proof.
  intros Hkc Hk Hv Tk Tv Hr.
  apply Trim_fixed in Tk, Tv. destruct Tk as [Fk Lk], Tv as [Fv Lv].
  assert (HS : containsByte (k ++ ":" ++ v) LF = false).
  { rewrite !containsByte_append, Hk, Hv. reflexivity. }
  assert (HB : forall removeCRLF,
             decodeLine (k ++ ":" ++ v ++ nl ++ rest) removeCRLF
             = Some (splitLine (k ++ ":" ++ v ++ nl) removeCRLF, rest)).
  { intros removeCRLF. unfold decodeLine.
    rewrite Nat.add_comm. cbn [Nat.add].
    replace (k ++ ":" ++ v ++ nl ++ rest) with ((k ++ ":" ++ v) ++ nl ++ rest)
      by (rewrite !append_assoc; reflexivity).
    rewrite (decodeLine_loop_break _ _ _ _ HS Hr).
    assert (E : stripSpace ((k ++ ":" ++ v) ++ nl) = k ++ ":" ++ v ++ nl).
    { rewrite !append_assoc.
      destruct k as [|c k]; [reflexivity |].
      cbn [append stripSpace]. cbn [firstIn] in Fk.
      destruct (Ascii.eqb c " ") eqn:E; [| reflexivity].
      apply Ascii.eqb_eq in E. subst c. discriminate Fk. }
    rewrite E. reflexivity. }
  rewrite !HB. unfold splitLine, SplitN2.
  rewrite (cutByte_at_colon _ _ Hkc). cbn [negb].
  assert (Hkt : Trim k crlfCutset = k) by (apply Trim_fixed; auto).
  assert (Hks : Trim k " " = k)
    by (apply Trim_fixed; auto using firstIn_space, lastIn_space).
  rewrite Hkt, Hks.
  assert (Hvt : Trim (v ++ nl) crlfCutset = v).
  { unfold Trim. destruct v as [|c v]; [reflexivity |].
    rewrite (TrimLeft_fixed crlfCutset (String c v ++ nl)) by exact Fv.
    rewrite TrimRight_line. apply TrimRight_fixed, Lv. }
  assert (Hvs : Trim (v ++ nl) " " = v ++ nl).
  { apply Trim_fixed. split; [| apply lastIn_line].
    destruct v as [|c v]; [reflexivity |]. apply firstIn_space in Fv. exact Fv. }
  rewrite Hvt, Hvs. split; reflexivity.
Qed.

(** X5: for a key and a value that hold no line feed and have no space,
    carriage return or line feed at either end, the key holding no colon, the
    raw line key:value, ended by a line feed and not followed by a space, is
    read by [decodeLine] in trimming mode as the pair (key, value); in
    preserving mode the value comes with the line feed.  The reader is left
    at the next raw line. *)
Theorem decodeLine_key_value (k v rest : string) :
  containsByte k ":" = false ->
  containsByte k LF = false -> containsByte v LF = false ->
  Trim k crlfCutset = k -> Trim v crlfCutset = v ->
  HasPrefix rest " " = false ->
  decodeLine (k ++ ":" ++ v ++ nl ++ rest) true = Some (k, v, None, rest)
  /\ decodeLine (k ++ ":" ++ v ++ nl ++ rest) false
     = Some (k, v ++ nl, None, rest).
Proof. exact (decodeLine_pair k v rest). Qed.

Lemma decodeLine_key_value_witness :
  decodeLine (lines ["SUMMARY:Team meeting"; "END:VEVENT"]) true
  = Some ("SUMMARY", "Team meeting", None, lines ["END:VEVENT"])
  /\ decodeLine (lines ["SUMMARY:Team meeting"; "END:VEVENT"]) false
     = Some ("SUMMARY", "Team meeting" ++ nl, None, lines ["END:VEVENT"]).
Proof.
  apply (decodeLine_key_value "SUMMARY" "Team meeting" (lines ["END:VEVENT"]));
    reflexivity.
Defined.

(** ** The preserving mode *)

Lemma endsWithByte_cons (d : ascii) (s : string) (c : ascii) :
  s <> EmptyString -> endsWithByte (String d s) c = endsWithByte s c.
Proof. destruct s; [congruence | reflexivity]. Qed.

Lemma endsWithByte_nonempty (s : string) (c : ascii) :
  endsWithByte s c = true -> s <> EmptyString.
Proof. destruct s; [discriminate | discriminate]. Qed.

Lemma endsWithByte_append (s t : string) (c : ascii) :
  t <> EmptyString -> endsWithByte (s ++ t) c = endsWithByte t c.
Proof.
  intros Ht. induction s as [|d s IH]; [reflexivity |].
  cbn [append]. rewrite endsWithByte_cons; [exact IH |].
  destruct s; [exact Ht | discriminate].
Qed.

Lemma ReadBytes_delim (r : Reader) :
  forall b r', ReadBytes r LF = (b, None, r') -> endsWithByte b LF = true.
Proof.
  induction r as [|c r IH]; simpl; intros b r' H; [discriminate H |].
  destruct (Ascii.eqb c LF) eqn:E.
  - inversion H; subst. simpl. exact E.
  - destruct (ReadBytes r LF) as [[b0 err0] r0].
    inversion H; subst. specialize (IH _ _ eq_refl).
    rewrite endsWithByte_cons; [exact IH | exact (endsWithByte_nonempty _ _ IH)].
Qed.

Lemma stripSpace_ends (b : string) :
  endsWithByte b LF = true -> endsWithByte (stripSpace b) LF = true.
Proof.
  destruct b as [|c b]; [discriminate |]. cbn [stripSpace].
  destruct (Ascii.eqb c " ") eqn:E; [| trivial].
  apply Ascii.eqb_eq in E. subst c.
  destruct b as [|d b]; [discriminate | trivial].
Qed.

(** A logical line that does not reach the end of the stream ends with the
    line feed of its last raw line. *)
Lemma decodeLine_loop_ends (fuel : nat) :
  forall r buf buf' r',
    decodeLine_loop fuel r buf false = Some (LineBuf buf' r') ->
    r' <> EmptyString -> endsWithByte buf' LF = true.
Proof.
  induction fuel as [|fuel IH]; intros r buf buf' r' H Hr'; [discriminate H |].
  cbn [decodeLine_loop] in H.
  destruct (ReadBytes r LF) as [[b err] r1] eqn:E.
  destruct (ReadBytes_spec _ _ _ _ _ E) as [_ [[-> Hb] | [-> ->]]].
  - pose proof (stripSpace_ends _ (ReadBytes_delim _ _ _ E)) as Hs.
    pose proof (endsWithByte_nonempty _ _ Hs) as Hne.
    destruct b as [|c0 b0]; [congruence |].
    cbn [String.length Nat.eqb] in H. cbv iota in H.
    destruct r1 as [|c r1]; cbn [Peek1] in H.
    + inversion H; subst. congruence.
    + destruct (Ascii.eqb c " "); cbn [negb] in H.
      * exact (IH _ _ _ _ H Hr').
      * inversion H; subst. rewrite endsWithByte_append; assumption.
  - cbn [error_eqb] in H. cbv iota in H.
    destruct (String.length b =? 0)%nat.
    + destruct fuel; [discriminate H |]. cbn [decodeLine_loop] in H.
      inversion H; subst. congruence.
    + cbn [Peek1] in H. inversion H; subst. congruence.
Qed.

Lemma cutByte_ends (s : string) :
  forall p0 p1, cutByte ":" s = Some (p0, p1) ->
    endsWithByte s LF = true -> endsWithByte p1 LF = true.
Proof.
  induction s as [|c s IH]; intros p0 p1 H He; [discriminate H |].
  cbn [cutByte] in H. destruct (Ascii.eqb c ":") eqn:E.
  - inversion H; subst. apply Ascii.eqb_eq in E. subst c.
    destruct p1 as [|d p1]; [discriminate He | exact He].
  - destruct (cutByte ":" s) as [[q0 q1]|] eqn:C; [| discriminate H].
    inversion H; subst. apply (IH _ _ eq_refl).
    rewrite endsWithByte_cons in He; [exact He |].
    destruct s; [discriminate C | discriminate].
Qed.

Lemma Trim_space_ends (s : string) :
  endsWithByte s LF = true -> endsWithByte (Trim s " ") LF = true.
Proof.
  intros H. unfold Trim.
  assert (HL : endsWithByte (TrimLeft s " ") LF = true).
  { induction s as [|c s IH]; [discriminate H |].
    cbn [TrimLeft]. destruct (inCutset " " c) eqn:E; [| exact H].
    destruct s as [|d s].
    - simpl in H, E. rewrite orb_false_r in E.
      apply Ascii.eqb_eq in H, E. subst c. discriminate E.
    - apply IH. exact H. }
  revert HL. generalize (TrimLeft s " "). clear H s. intros s H.
  rewrite TrimRight_fixed; [exact H |].
  induction s as [|c s IH]; [reflexivity |].
  destruct s as [|d s]; [| exact (IH H)].
  simpl in H. apply Ascii.eqb_eq in H. subst c. reflexivity.
Qed.

(** In preserving mode a value read before the end of the stream ends with a
    line feed. *)
Lemma decodeLine_preserved_value (r : Reader) (key value : string) (r' : Reader) :
  decodeLine r false = Some (key, value, None, r') ->
  r' <> EmptyString -> endsWithByte value LF = true.
Proof.
  unfold decodeLine.
  destruct (decodeLine_loop (String.length r + 2) r EmptyString false)
    as [[buf r1|e r1]|] eqn:E; try discriminate.
  unfold splitLine, SplitN2.
  destruct (cutByte ":" buf) as [[p0 p1]|] eqn:C; cbn [negb];
    intros H Hr'; inversion H; subst.
  apply Trim_space_ends, (cutByte_ends _ _ _ C), (decodeLine_loop_ends _ _ _ _ _ E Hr').
Qed.

Lemma decode_loop_at_end (removeCRLF : bool) (fuel : nat) (c0 : option Calendar)
    (c : Calendar) :
  decode_loop fuel EmptyString removeCRLF c0 <> Some (Ok c).
Proof. destruct fuel; discriminate. Qed.

Lemma decode_loop_preserve_never_Ok (fuel : nat) :
  forall r c, decode_loop fuel r false None <> Some (Ok c).
Proof.
  induction fuel as [|fuel IH]; intros r c; [discriminate |].
  cbn [decode_loop].
  destruct (decodeLine r false) as [[[[key value] [er|]] r1]|] eqn:HL;
    try discriminate.
  destruct r1 as [|d r1].
  - destruct (beginBlock key value EmptyString false None) as [[[c1 r2]|er]|] eqn:B;
      try discriminate.
    assert (r2 = EmptyString) as ->.
    { destruct (beginBlock_total key value EmptyString false None)
        as (res & HB & Hlen). rewrite B in HB. inversion HB; subst.
      specialize (Hlen _ _ eq_refl). destruct r2; [reflexivity | simpl in Hlen; lia]. }
    destruct ((key =? "END") && (value =? "VCALENDAR")) eqn:E.
    + apply andb_prop in E. destruct E as [E _].
      revert B. unfold beginBlock.
      destruct (key =? "BEGIN") eqn:E'.
      * apply String.eqb_eq in E, E'. congruence.
      * intros B. inversion B; subst. discriminate.
    + apply decode_loop_at_end.
  - pose proof (decodeLine_preserved_value _ _ _ _ HL) as Hv.
    assert (Hne : (value =? "VCALENDAR") = false).
    { apply String.eqb_neq. intros ->.
      assert (endsWithByte "VCALENDAR" LF = true) by (apply Hv; discriminate).
      discriminate. }
    unfold beginBlock. rewrite Hne.
    destruct (key =? "BEGIN"); cbn [negb]; [discriminate |].
    rewrite andb_false_r. apply IH.
Qed.

(** X6: [DecodePreserveCRLF] never returns a calendar.  In preserving mode
    the value of a line keeps its line feed, so no pair is BEGIN with the
    value VCALENDAR unless the stream ends there, and then the next read
    fails: the call returns an error or panics. *)
Theorem DecodePreserveCRLF_never_returns_calendar (r : Reader) :
  exists o,
    DecodePreserveCRLF r = Some o /\ (o = Panic \/ exists er, o = Err er).
Proof.
  destruct (decode_total r false) as [o Ho]. exists o. split; [exact Ho |].
  destruct o as [c|er|]; [| right; eexists; reflexivity | left; reflexivity].
  exfalso. exact (decode_loop_preserve_never_Ok _ _ _ Ho).
Qed.

(** ** [UnescapeText] on every text *)

Lemma replaceFrom_absent (old new : string) (c : ascii) :
  containsByte new c = false ->
  forall s skip, containsByte s c = false ->
    containsByte (replaceFrom old new skip s) c = false.
Proof.
  intros Hn. induction s as [|d s IH]; intros skip Hs; [reflexivity |].
  cbn [containsByte] in Hs. apply orb_false_elim in Hs. destruct Hs as [Hd Hs].
  cbn [replaceFrom]. destruct skip as [|k]; [| apply IH, Hs].
  destruct (HasPrefix (String d s) old).
  - rewrite containsByte_append, Hn. apply IH, Hs.
  - cbn [containsByte]. rewrite Hd. apply IH, Hs.
Qed.

Lemma Replace_absent (s old new : string) (c : ascii) :
  containsByte new c = false -> containsByte s c = false ->
  containsByte (Replace s old new) c = false.
Proof. intros Hn Hs. apply replaceFrom_absent; assumption. Qed.

(** Replacing a byte by a text that does not hold it removes the byte. *)
Lemma Replace_byte_removed (s new : string) (c : ascii) :
  containsByte new c = false ->
  containsByte (Replace s (String c EmptyString) new) c = false.
Proof.
  intros Hn. unfold Replace. induction s as [|d s IH]; [reflexivity |].
  cbn [replaceFrom HasPrefix String.length Nat.sub].
  rewrite andb_true_r. destruct (Ascii.eqb d c) eqn:E.
  - rewrite containsByte_append, Hn. exact IH.
  - cbn [containsByte]. rewrite E. exact IH.
Qed.

(** A replacement whose [old] begins with a byte that the text does not hold
    leaves the text as it is. *)
Lemma Replace_nothing (s old' new : string) (c : ascii) :
  containsByte s c = false -> Replace s (String c old') new = s.
Proof.
  unfold Replace. induction s as [|d s IH]; intros Hs; [reflexivity |].
  cbn [containsByte] in Hs. apply orb_false_elim in Hs. destruct Hs as [Hd Hs].
  cbn [replaceFrom HasPrefix]. rewrite Hd. cbn [andb]. rewrite (IH Hs).
  reflexivity.
Qed.

Lemma UnescapeText_no_LF (s : string) :
  containsByte (UnescapeText s) LF = false.
Proof.
  unfold UnescapeText. apply Replace_absent; [reflexivity |].
  apply Replace_byte_removed. reflexivity.
Qed.

(** X7: the text that [UnescapeText] returns holds no line feed, whatever the
    input, and is never longer than the input. *)
Theorem UnescapeText_single_line (s : string) :
  containsByte (UnescapeText s) LF = false
  /\ String.length (UnescapeText s) <= String.length s.
Proof. split; [apply UnescapeText_no_LF | apply UnescapeText_length]. Qed.

(** [UnescapeText] on a text without backslash, line feed and ampersand. *)
Lemma UnescapeText_id (s : string) :
  containsByte s "\" = false -> containsByte s LF = false ->
  containsByte s "&" = false ->
  UnescapeText s = s.
Proof.
  intros Hb Hl Ha. unfold UnescapeText.
  rewrite (Replace_nothing s ";" ";" "\" Hb).
  rewrite (Replace_nothing s "," "," "\" Hb).
  rewrite (Replace_nothing s "n" (String LF EmptyString) "\" Hb).
  rewrite (Replace_nothing s "\" "\" "\" Hb).
  rewrite (Replace_nothing s EmptyString " " LF Hl).
  apply (Replace_nothing s "nbsp" " " "&" Ha).
Qed.

(** X8: a text that holds no backslash, no line feed and no ampersand is
    returned by [UnescapeText] as it is. *)
Theorem UnescapeText_plain (s : string) :
  containsByte s "\" = false -> containsByte s LF = false ->
  containsByte s "&" = false ->
  UnescapeText s = s.
Proof. exact (UnescapeText_id s). Qed.

Lemma UnescapeText_plain_witness :
  containsByte "Team meeting, room 4; bring notes" "\" = false
  /\ UnescapeText "Team meeting, room 4; bring notes"
     = "Team meeting, room 4; bring notes".
Proof.
  split; [reflexivity |]. apply UnescapeText_plain; reflexivity.
Defined.

(** ** What a decoded event holds *)

Lemma digitVal_range (c : ascii) :
  time.isDigitByte c = true -> (0 <= time.digitVal c <= 9)%Z.
Proof.
  unfold time.isDigitByte, time.digitVal. intros H.
  apply andb_prop in H. destruct H as [H1 H2].
  apply Nat.leb_le in H1, H2. lia.
Qed.

Lemma digitsBound_mono (n : nat) :
  forall x y, (x <= y)%Z -> (digitsBound n x <= digitsBound n y)%Z.
Proof. induction n as [|n IH]; intros x y H; simpl; [exact H | apply IH; lia]. Qed.

Lemma digitsBound_ge (n : nat) :
  forall x, (0 <= x)%Z -> (x <= digitsBound n x)%Z.
Proof.
  induction n as [|n IH]; intros x H; simpl; [lia |].
  specialize (IH (x * 10 + 9)%Z). lia.
Qed.

Lemma leadingInt_range (s : string) :
  forall x q rem, (0 <= x)%Z -> time.leadingInt x s = (q, rem) ->
    (0 <= q <= digitsBound (String.length s) x)%Z.
Proof.
  induction s as [|c s IH]; intros x q rem Hx H; simpl in H.
  - inversion H; subst. simpl. lia.
  - destruct (time.isDigitByte c) eqn:E.
    + pose proof (digitVal_range _ E) as Hd.
      apply IH in H; [| lia]. cbn [String.length digitsBound].
      pose proof (digitsBound_mono (String.length s)
                    (x * 10 + time.digitVal c) (x * 10 + 9)) as Hm. lia.
    + inversion H; subst.
      pose proof (digitsBound_ge (String.length (String c s)) q Hx). lia.
Qed.

Lemma substring_length (m : nat) :
  forall s, String.length (String.substring 0 m s) <= m.
Proof.
  induction m as [|m IH]; intros [|c s]; simpl; try lia.
  specialize (IH s). lia.
Qed.

Lemma digit_not_sign (c : ascii) :
  time.isDigitByte c = true -> Ascii.eqb c "-" = false /\ Ascii.eqb c "+" = false.
Proof.
  intros H. split.
  - destruct (Ascii.eqb c "-") eqn:E; [| reflexivity].
    apply Ascii.eqb_eq in E. subst c. discriminate H.
  - destruct (Ascii.eqb c "+") eqn:E; [| reflexivity].
    apply Ascii.eqb_eq in E. subst c. discriminate H.
Qed.

(** The year that [atoi] reads from the first four bytes of a value whose
    first byte is a digit. *)
Lemma atoi_year_range (value : string) (year : Z) :
  time.isDigit value 0 = true ->
  time.atoi (String.substring 0 4 value) = (year, None) ->
  (0 <= year <= 9999)%Z.
Proof.
  intros Hd H. destruct value as [|c v]; [discriminate Hd |].
  unfold time.isDigit in Hd. cbn [String.get] in Hd.
  destruct (digit_not_sign _ Hd) as [Hm Hp].
  unfold time.atoi in H. cbn [String.substring] in H. rewrite Hm, Hp in H.
  destruct (time.leadingInt 0 (String c (String.substring 0 3 v)))
    as [q rem] eqn:L.
  destruct rem; [| discriminate H]. inversion H; subst.
  apply leadingInt_range in L; [| lia].
  pose proof (substring_length 3 v) as H3.
  assert (Hb : (digitsBound (String.length (String c (String.substring 0 3 v))) 0
                <= digitsBound 4 0)%Z).
  { cbn [String.length].
    remember (String.length (String.substring 0 3 v)) as n.
    destruct n as [|[|[|[|n]]]]; simpl; lia. }
  change (digitsBound 4 0) with 9999%Z in Hb. lia.
Qed.

Lemma validDate_zero : validDate time.zero.
Proof. unfold validDate. repeat split; vm_compute; discriminate. Qed.

(** A date that [time.Parse] returns is a civil date. *)
Lemma Parse_20060102_valid (value : string) :
  validDate (fst (time.Parse_20060102 value)).
Proof.
  unfold time.Parse_20060102.
  destruct ((String.length value <? 4)%nat || negb (time.isDigit value 0)) eqn:E0;
    [apply validDate_zero |].
  apply orb_false_elim in E0. destruct E0 as [_ E0].
  apply negb_false_iff in E0.
  destruct (time.atoi (String.substring 0 4 value)) as [year [er|]] eqn:EA;
    [apply validDate_zero |].
  pose proof (atoi_year_range _ _ E0 EA) as Hy.
  destruct (time.getnum (time.sliceFrom value 4) true) as [[month v1] [er|]];
    [apply validDate_zero |].
  destruct ((month <=? 0)%Z || (12 <? month)%Z) eqn:EM; [apply validDate_zero |].
  apply orb_false_elim in EM. destruct EM as [M1 M2].
  apply Z.leb_gt in M1. apply Z.ltb_ge in M2.
  destruct (time.getnum v1 true) as [[day v2] [er|]]; [apply validDate_zero |].
  destruct (negb (String.length v2 =? 0)%nat); [apply validDate_zero |].
  destruct ((day <? 1)%Z || (time.daysIn month year <? day)%Z) eqn:ED;
    [apply validDate_zero |].
  apply orb_false_elim in ED. destruct ED as [D1 D2].
  apply Z.ltb_ge in D1, D2.
  unfold validDate. simpl. lia.
Qed.

Lemma decodeDate_valid (value : string) : validDate (fst (decodeDate value)).
Proof.
  unfold decodeDate. destruct (String.length value <? 8)%nat;
    [apply validDate_zero | apply Parse_20060102_valid].
Qed.

Lemma wellFormed_newEvent : wellFormed newEvent.
Proof.
  unfold wellFormed.
  repeat split; try reflexivity; vm_compute; discriminate.
Qed.

(** A pass of the event loop keeps the event well formed. *)
Lemma eventBody_wellFormed (key value : string) (err : option error) (e : Event) :
  wellFormed e ->
  match eventBody key value err e with
  | Return e' => wellFormed e'
  | Continue e' _ => wellFormed e'
  end.
Proof.
  intros (H1 & H2 & H3 & H4 & H5 & H6). unfold eventBody.
  pose proof (decodeDate_valid (UnescapeText value)) as Hd.
  destruct (decodeDate (UnescapeText value)) as [t derr]. simpl in Hd.
  pose proof (UnescapeText_no_LF value) as Hu.
  case_ifs; unfold wellFormed; simpl; auto 10.
Qed.

Lemma decodeEvent_loop_wellFormed (removeCRLF : bool) (fuel : nat) :
  forall r e err e' r',
    wellFormed e ->
    decodeEvent_loop fuel r removeCRLF e err = Some (inl e', r') ->
    wellFormed e'.
Proof.
  induction fuel as [|fuel IH]; intros r e err e' r' He H; [discriminate H |].
  cbn [decodeEvent_loop] in H. destruct err as [er|].
  - destruct (error_eqb er io_EOF); inversion H; subst. exact He.
  - destruct (decodeLine r removeCRLF) as [[[[key value] err1] r1]|];
      [| discriminate H].
    pose proof (eventBody_wellFormed key value err1 e He) as HB.
    destruct (eventBody key value err1 e) as [e1|e1 err2].
    + inversion H; subst. exact HB.
    + exact (IH _ _ _ _ _ HB H).
Qed.

Lemma decode_loop_wellFormed (removeCRLF : bool) (fuel : nat) :
  forall r c0 c,
    match c0 with
    | Some c1 => Forall wellFormed (Calendar_Event c1)
    | None => True
    end ->
    decode_loop fuel r removeCRLF c0 = Some (Ok c) ->
    Forall wellFormed (Calendar_Event c).
Proof.
  induction fuel as [|fuel IH]; intros r c0 c Hc H; [discriminate H |].
  cbn [decode_loop] in H.
  destruct (decodeLine r removeCRLF) as [[[[key value] [er|]] r1]|];
    try discriminate H.
  destruct (beginBlock key value r1 removeCRLF c0) as [[[c1 r2]|er]|] eqn:B;
    try discriminate H.
  assert (Hc1 : match c1 with
                | Some c2 => Forall wellFormed (Calendar_Event c2)
                | None => True
                end).
  { revert B. unfold beginBlock. destruct (key =? "BEGIN").
    - destruct (match c0 with
                | Some c2 => inl c2
                | None => if negb (value =? "VCALENDAR")
                          then inr errNoVCalendar else inl newCalendar
                end) as [c2|er] eqn:E; [| discriminate].
      assert (Hc2 : Forall wellFormed (Calendar_Event c2)).
      { destruct c0 as [c3|].
        - inversion E; subst. exact Hc.
        - destruct (negb (value =? "VCALENDAR")); inversion E. constructor. }
      destruct (value =? "VEVENT").
      + destruct (decodeEvent r1 removeCRLF) as [[[e|er] r3]|] eqn:D;
          intros B; inversion B; subst. simpl.
        apply Forall_app. split; [exact Hc2 |]. constructor; [| constructor].
        exact (decodeEvent_loop_wellFormed _ _ _ _ _ _ _ wellFormed_newEvent D).
      + intros B; inversion B; subst. exact Hc2.
    - intros B; inversion B; subst. exact Hc. }
  destruct ((key =? "END") && (value =? "VCALENDAR")).
  - destruct c1 as [c1|]; simpl in H; inversion H; subst. simpl.
    apply (Permutation_Forall (Permutation_sym (sort_Sort_Permutation _))), Hc1.
  - exact (IH _ _ _ Hc1 H).
Qed.

(** X9: every event of a calendar that [decode] returns, and every event
    that [decodeEvent] returns, has a UID, a Summary, a Location and a
    Description without a line feed, and a Start and an End that are civil
    dates of the years 0 to 9999 (the unset date, January 1 of year 1, is
    one). *)
Theorem decoded_events_well_formed (r : Reader) (removeCRLF : bool) :
  (forall c, decode r removeCRLF = Some (Ok c) ->
     Forall wellFormed (Calendar_Event c))
  /\ (forall e r', decodeEvent r removeCRLF = Some (inl e, r') -> wellFormed e).
Proof.
  split.
  - intros c H. exact (decode_loop_wellFormed _ _ _ None _ I H).
  - intros e r' H.
    exact (decodeEvent_loop_wellFormed _ _ _ _ _ _ _ wellFormed_newEvent H).
Qed.

Lemma decoded_events_well_formed_witness :
  Decode minimal
  = Some (Ok (mkCalendar
                [mkEvent "1@test" (time.mkTime 2023 1 1) (time.mkTime 2023 1 2)
                         "Test" EmptyString EmptyString]))
  /\ Forall wellFormed
       [mkEvent "1@test" (time.mkTime 2023 1 1) (time.mkTime 2023 1 2)
                "Test" EmptyString EmptyString].
Proof.
  split; [vm_compute; reflexivity |].
  destruct (decoded_events_well_formed minimal true) as [H _].
  apply (H (mkCalendar
              [mkEvent "1@test" (time.mkTime 2023 1 1) (time.mkTime 2023 1 2)
                       "Test" EmptyString EmptyString])).
  vm_compute. reflexivity.
Defined.

(** ** Dates *)

Lemma digitByte_spec (n : Z) :
  (0 <= n <= 9)%Z ->
  time.isDigitByte (digitByte n) = true /\ time.digitVal (digitByte n) = n.
Proof.
  intros H. unfold time.isDigitByte, time.digitVal, digitByte.
  rewrite nat_ascii_embedding by lia. split.
  - apply andb_true_intro. split; apply Nat.leb_le; lia.
  - lia.
Qed.

(** Eight digits that spell a civil date are parsed to that date. *)
Lemma Parse_20060102_digits (A B C D E F G H : ascii) :
  time.isDigitByte A = true -> time.isDigitByte B = true ->
  time.isDigitByte C = true -> time.isDigitByte D = true ->
  time.isDigitByte E = true -> time.isDigitByte F = true ->
  time.isDigitByte G = true -> time.isDigitByte H = true ->
  forall y m d,
    y = ((((0 * 10 + time.digitVal A) * 10 + time.digitVal B) * 10
          + time.digitVal C) * 10 + time.digitVal D)%Z ->
    m = (time.digitVal E * 10 + time.digitVal F)%Z ->
    d = (time.digitVal G * 10 + time.digitVal H)%Z ->
    (1 <= m <= 12)%Z -> (1 <= d <= time.daysIn m y)%Z ->
    time.Parse_20060102
      (String A (String B (String C (String D
         (String E (String F (String G (String H EmptyString))))))))
    = (time.mkTime y m d, None).
Proof.
  intros HA HB HC HD HE HF HG HH y m d Hy Hm Hd Rm Rd.
  destruct (digit_not_sign _ HA) as [Sm Sp].
  unfold time.Parse_20060102, time.isDigit, time.atoi, time.getnum,
    time.sliceFrom.
  cbn [String.length String.get String.substring Nat.ltb Nat.leb Nat.sub
       orb negb time.leadingInt Nat.eqb].
  rewrite HA. cbn [negb orb]. rewrite Sm, Sp.
  cbn [time.leadingInt]. rewrite HA, HB, HC, HD.
  unfold time.isDigit. cbn [String.get]. rewrite HE, HF. cbn [negb].
  rewrite <- Hm, <- Hy.
  replace ((m <=? 0)%Z || (12 <? m)%Z) with false
    by (symmetry; apply orb_false_intro; [apply Z.leb_gt | apply Z.ltb_ge]; lia).
  cbv iota beta. cbn [String.get]. rewrite HG, HH.
  cbn [negb String.length Nat.eqb]. rewrite <- Hd.
  replace ((d <? 1)%Z || (time.daysIn m y <? d)%Z) with false
    by (symmetry; apply orb_false_intro; apply Z.ltb_ge; lia).
  reflexivity.
Qed.

Lemma decimal_digits (y : Z) :
  (0 <= y <= 9999)%Z ->
  (0 <= y / 1000 <= 9 /\ 0 <= y / 100 mod 10 <= 9 /\ 0 <= y / 10 mod 10 <= 9
   /\ 0 <= y mod 10 <= 9
   /\ y = (((0 * 10 + y / 1000) * 10 + y / 100 mod 10) * 10 + y / 10 mod 10) * 10
          + y mod 10)%Z.
Proof. intros H. Z.div_mod_to_equations. lia. Qed.

Lemma two_digits (m : Z) :
  (0 <= m <= 99)%Z ->
  (0 <= m / 10 <= 9 /\ 0 <= m mod 10 <= 9 /\ m = m / 10 * 10 + m mod 10)%Z.
Proof. intros H. Z.div_mod_to_equations. lia. Qed.

Lemma daysIn_le_31 (m y : Z) : (time.daysIn m y <= 31)%Z.
Proof.
  unfold time.daysIn. destruct ((m =? 2)%Z && time.isLeap y); [lia |].
  destruct (Z.to_nat (m - 1)) as [|[|[|[|[|[|[|[|[|[|[|[|n]]]]]]]]]]]];
    simpl; try lia.
  destruct n; simpl; lia.
Qed.

Lemma append_substring (s t : string) :
  String.substring 0 (String.length s) (s ++ t) = s.
Proof.
  induction s as [|c s IH]; [apply substring_0_0 |].
  cbn [String.length append String.substring]. rewrite IH. reflexivity.
Qed.

(** [decodeDate] on the eight digits of a civil date. *)
Lemma decodeDate_date8 (y m d : Z) (suffix : string) :
  validDate (time.mkTime y m d) ->
  decodeDate (date8 y m d ++ suffix) = (time.mkTime y m d, None).
Proof.
  unfold validDate. cbn [time.Year time.Month time.Day]. intros (Hy & Hm & Hd).
  pose proof (daysIn_le_31 m y) as H31.
  destruct (decimal_digits y Hy) as (Y1 & Y2 & Y3 & Y4 & Ey).
  destruct (two_digits m) as (M1 & M2 & Em); [lia |].
  destruct (two_digits d) as (D1 & D2 & Ed); [lia |].
  unfold decodeDate.
  replace (String.length (date8 y m d ++ suffix) <? 8)%nat with false
    by (rewrite length_append; reflexivity).
  change 8 with (String.length (date8 y m d)) at 1.
  rewrite append_substring. unfold date8.
  destruct (digitByte_spec _ Y1) as [A1 A2], (digitByte_spec _ Y2) as [B1 B2],
    (digitByte_spec _ Y3) as [C1 C2], (digitByte_spec _ Y4) as [D1' D2'],
    (digitByte_spec _ M1) as [E1 E2], (digitByte_spec _ M2) as [F1 F2],
    (digitByte_spec _ D1) as [G1 G2], (digitByte_spec _ D2) as [H1 H2].
  apply Parse_20060102_digits; try assumption.
  - rewrite A2, B2, C2, D2'. exact Ey.
  - rewrite E2, F2. exact Em.
  - rewrite G2, H2. exact Ed.
Qed.

(** X10: a civil date of the years 0 to 9999 written as the eight digits
    YYYYMMDD is decoded by [decodeDate] to that date, whatever follows the
    eighth byte (a time of day, as in 20230101T150405Z, is not looked at). *)
Theorem decodeDate_reads_civil_date (y m d : Z) (suffix : string) :
  validDate (time.mkTime y m d) ->
  decodeDate (date8 y m d ++ suffix) = (time.mkTime y m d, None).
Proof. exact (decodeDate_date8 y m d suffix). Qed.

Lemma decodeDate_reads_civil_date_witness :
  validDate (time.mkTime 2024 2 29)
  /\ decodeDate "20240229T150405Z" = (time.mkTime 2024 2 29, None).
Proof.
  assert (H : validDate (time.mkTime 2024 2 29))
    by (unfold validDate; repeat split; vm_compute; discriminate).
  split; [exact H |].
  exact (decodeDate_reads_civil_date 2024 2 29 "T150405Z" H).
Defined.

(** X11: a DTSTART or DTEND whose value does not parse as a date is fatal:
    the pass of the event loop that reads it keeps the error of
    [decodeDate], and the next pass returns it with no event; the value has
    8 bytes or more and the error is a parse error of [time.Parse]. *)
Theorem bad_date_is_fatal (r : Reader) (removeCRLF : bool) (key value : string)
    (r' : Reader) (er : error) :
  decodeLine r removeCRLF = Some (key, value, None, r') ->
  fixKey key = "DTSTART" \/ fixKey key = "DTEND" ->
  snd (decodeDate (UnescapeText value)) = Some er ->
  er = errTimeParse
  /\ String.length (UnescapeText value) >= 8
  /\ forall fuel e,
       decodeEvent_loop (S (S fuel)) r removeCRLF e None = Some (inr er, r').
Proof.
  intros HL Hk Hd.
  assert (He : er = errTimeParse).
  { destruct (decodeDate_error (UnescapeText value)) as [H | H];
      rewrite H in Hd; congruence. }
  split; [exact He |]. split.
  - unfold decodeDate in Hd.
    destruct (String.length (UnescapeText value) <? 8)%nat eqn:E;
      [discriminate Hd | apply Nat.ltb_ge in E; lia].
  - intros fuel e. cbn [decodeEvent_loop]. rewrite HL.
    unfold eventBody.
    destruct (decodeDate (UnescapeText value)) as [t derr]. simpl in Hd.
    subst derr.
    destruct Hk as [-> | ->]; simpl; subst er; reflexivity.
Qed.

Lemma bad_date_is_fatal_witness :
  decodeLine (lines ["DTSTART:2023-01-01"; "END:VEVENT"]) true
  = Some ("DTSTART", "2023-01-01", None, lines ["END:VEVENT"])
  /\ decodeEvent (lines ["DTSTART:2023-01-01"; "END:VEVENT"]) true
     = Some (inr errTimeParse, lines ["END:VEVENT"]).
Proof.
  split; [reflexivity |].
  destruct (bad_date_is_fatal (lines ["DTSTART:2023-01-01"; "END:VEVENT"]) true
              "DTSTART" "2023-01-01" (lines ["END:VEVENT"]) errTimeParse)
    as (_ & _ & H); [reflexivity | left; reflexivity | reflexivity |].
  apply (H 23 newEvent).
Defined.

(** ** The order of the returned events *)




Lemma Before_trans (t u v : time.Time) :
  time.Before t u = true -> time.Before u v = true -> time.Before t v = true.
Proof. rewrite !Before_true. unfold lexLt. lia. Qed.

Lemma Before_total (t u : time.Time) :
  time.Before t u = false -> time.Before u t = false -> t = u.
Proof.
  rewrite !Before_false. unfold lexLt. destruct t as [y m d], u as [y' m' d'].
  simpl. intros H1 H2.
  assert (y = y') by lia. assert (m = m') by lia. assert (d = d') by lia.
  congruence.
Qed.

(** X13: on events whose Start is set, [Less] is a strict total order of the
    Starts: no event is less than itself, [Less] is asymmetric and
    transitive, and two events of which neither is less than the other have
    the same Start. *)
Theorem Less_strict_on_set_starts (a b c : Event) :
  time.IsZero (Start a) = false -> time.IsZero (Start b) = false ->
  time.IsZero (Start c) = false ->
  less a a = false
  /\ (less a b = true -> less b a = false)
  /\ (less a b = true -> less b c = true -> less a c = true)
  /\ (less a b = false -> less b a = false -> Start a = Start b).
Proof.
  intros Ha Hb Hc. unfold less. rewrite Ha, Hb, ?Hc.
  split; [| split; [| split]].
  - apply Before_false. unfold lexLt. lia.
  - apply Before_asym.
  - apply Before_trans.
  - apply Before_total.
Qed.

Lemma Less_strict_on_set_starts_witness :
  let a := setStart newEvent (time.mkTime 2023 1 1) in
  let b := setStart newEvent (time.mkTime 2023 3 1) in
  time.IsZero (Start a) = false
  /\ less a b = true /\ less b a = false /\ less a a = false.
Proof.
  intros a b.
  destruct (Less_strict_on_set_starts a b b) as (H1 & H2 & _);
    [reflexivity | reflexivity | reflexivity |].
  split; [reflexivity |]. split; [reflexivity |].
  split; [apply H2; reflexivity | exact H1].
Defined.

(** ** Lines that the event loop passes over *)

Lemma decodeEvent_loop_more_fuel (removeCRLF : bool) (fuel : nat) :
  forall r e err res, decodeEvent_loop fuel r removeCRLF e err = Some res ->
    decodeEvent_loop (S fuel) r removeCRLF e err = Some res.
Proof.
  induction fuel as [|fuel IH]; intros r e err res H; [discriminate H |].
  cbn [decodeEvent_loop] in H. cbn [decodeEvent_loop].
  destruct err as [er|]; [exact H |].
  destruct (decodeLine r removeCRLF) as [[[[key value] err1] r1]|];
    [| discriminate H].
  destruct (eventBody key value err1 e) as [e1|e1 err2]; [exact H |].
  exact (IH _ _ _ _ H).
Qed.

Lemma decodeEvent_loop_fuel (removeCRLF : bool) (r : Reader) (e : Event) (k : nat) :
  decodeEvent_loop (String.length r + 2 + k) r removeCRLF e None
  = decodeEvent_loop (String.length r + 2) r removeCRLF e None.
Proof.
  destruct (decodeEvent_loop_total removeCRLF (String.length r + 2) r e None)
    as (res & r' & H & _); [lia |].
  rewrite H. induction k as [|k IH]; [rewrite Nat.add_0_r; exact H |].
  rewrite Nat.add_succ_r. apply decodeEvent_loop_more_fuel, IH.
Qed.

(** X14: a raw line that the event loop passes over (its pass leaves the
    event and [err] as they are: an END other than END:VEVENT, such as
    END:VALARM, or a key that the switch does not list) does not change what
    [decodeEvent] returns: the result is that of the stream without the
    line. *)
Theorem passed_over_line_is_as_absent (s rest : string) (removeCRLF : bool)
    (key value : string) :
  containsByte s LF = false -> HasPrefix rest " " = false ->
  splitLine (stripSpace (s ++ nl)) removeCRLF = (key, value, None) ->
  (forall e, eventBody key value None e = Continue e None) ->
  decodeEvent (s ++ nl ++ rest) removeCRLF = decodeEvent rest removeCRLF.
Proof.
  intros Hs Hr Hsplit Hbody.
  assert (HL : decodeLine (s ++ nl ++ rest) removeCRLF
               = Some (key, value, None, rest)).
  { unfold decodeLine. rewrite Nat.add_comm. cbn [Nat.add].
    rewrite (decodeLine_loop_break _ _ _ _ Hs Hr). cbn [append].
    rewrite Hsplit. reflexivity. }
  unfold decodeEvent.
  replace (String.length (s ++ nl ++ rest) + 2)
    with (S (String.length rest + 2 + String.length s))
    by (rewrite !length_append; simpl; lia).
  cbn [decodeEvent_loop]. rewrite HL, Hbody. apply decodeEvent_loop_fuel.
Qed.

Lemma passed_over_line_is_as_absent_witness :
  splitLine (stripSpace ("END:VALARM" ++ nl)) true = ("END", "VALARM", None)
  /\ decodeEvent (lines ["END:VALARM"; "UID:1"; "END:VEVENT"]) true
     = decodeEvent (lines ["UID:1"; "END:VEVENT"]) true
  /\ decodeEvent (lines ["X-WR-ALARMUID:7"; "END:VEVENT"]) true
     = decodeEvent (lines ["END:VEVENT"]) true.
Proof.
  split; [reflexivity |]. split.
  - apply (passed_over_line_is_as_absent "END:VALARM"
             (lines ["UID:1"; "END:VEVENT"]) true "END" "VALARM");
      reflexivity.
  - apply (passed_over_line_is_as_absent "X-WR-ALARMUID:7"
             (lines ["END:VEVENT"]) true "X-WR-ALARMUID" "7");
      reflexivity.
Defined.

(** ** Blank lines and folded lines in decode.go *)

(** X15: in decode.go a blank raw line (a line feed alone, or a carriage
    return and a line feed) that is not followed by a space is fatal in both
    modes: [decodeLine] returns the bad-line error for it, and the loop of
    [decode] and the loop of [decodeEvent] that read it return that error. *)
Theorem blank_line_aborts_decoding (rest : string) (removeCRLF : bool) :
  HasPrefix rest " " = false ->
  forall blank, blank = nl \/ blank = String CR nl ->
    decodeLine (blank ++ rest) removeCRLF
    = Some (EmptyString, EmptyString, Some errBadLine, rest)
    /\ (forall fuel c,
          decode_loop (S fuel) (blank ++ rest) removeCRLF c
          = Some (Err errBadLine))
    /\ (forall fuel e,
          decodeEvent_loop (S (S fuel)) (blank ++ rest) removeCRLF e None
          = Some (inr errBadLine, rest)).
Proof.
  intros Hr blank Hb.
  assert (HD : decodeLine (blank ++ rest) removeCRLF
               = Some (EmptyString, EmptyString, Some errBadLine, rest)).
  { destruct Hb as [-> | ->].
    - apply blank_line_is_bad_line, Hr.
    - apply (line_without_colon_fails (String CR EmptyString) rest removeCRLF);
        [reflexivity | reflexivity | exact Hr]. }
  split; [exact HD |]. split.
  - intros fuel c. cbn [decode_loop]. rewrite HD. reflexivity.
  - intros fuel e. cbn [decodeEvent_loop]. rewrite HD, eventBody_on_error.
    reflexivity.
Qed.

Lemma blank_line_aborts_decoding_witness :
  HasPrefix (lines ["END:VCALENDAR"]) " " = false
  /\ Decode (lines ["BEGIN:VCALENDAR"] ++ String CR nl ++ lines ["END:VCALENDAR"])
     = Some (Err errBadLine)
  /\ decodeLine (nl ++ lines ["END:VCALENDAR"]) false
     = Some (EmptyString, EmptyString, Some errBadLine, lines ["END:VCALENDAR"]).
Proof.
  split; [reflexivity |]. split; [vm_compute; reflexivity |].
  apply (blank_line_aborts_decoding (lines ["END:VCALENDAR"]) false);
    [reflexivity | left; reflexivity].
Defined.

Lemma firstIn_append (cutset s t : string) :
  s <> EmptyString -> firstIn cutset (s ++ t) = firstIn cutset s.
Proof. destruct s; [congruence | reflexivity]. Qed.

Lemma lastIn_append (cutset s t : string) :
  t <> EmptyString -> lastIn cutset (s ++ t) = lastIn cutset t.
Proof.
  intros Ht. induction s as [|c s IH]; [reflexivity |].
  cbn [append]. destruct (s ++ t) eqn:E.
  - destruct s; [simpl in E; congruence | discriminate E].
  - exact IH.
Qed.

(** X16: in decode.go, for a line key:value folded once inside the value
    (first piece, line feed, space, second piece), [decodeLine] in trimming
    mode returns as value the two pieces with the line feed of the first raw
    line between them: the fold is not undone.  The key holds no colon and no
    line feed and is trimmed; the pieces hold no line feed, the first does
    not begin and the second does not end with a space, a carriage return or
    a line feed. *)
Theorem folded_value_joined_by_line_feed (k v1 v2 rest : string) :
  containsByte k ":" = false -> containsByte k LF = false ->
  Trim k crlfCutset = k ->
  containsByte v1 LF = false -> containsByte v2 LF = false ->
  v1 <> EmptyString -> firstIn crlfCutset v1 = false ->
  v2 <> EmptyString -> lastIn crlfCutset v2 = false ->
  HasPrefix rest " " = false ->
  decodeLine (k ++ ":" ++ v1 ++ nl ++ String " " (v2 ++ nl ++ rest)) true
  = Some (k, v1 ++ nl ++ v2, None, rest).
Proof.
  intros Hkc Hk Tk H1 H2 N1 F1 N2 L2 Hr.
  apply Trim_fixed in Tk. destruct Tk as [Fk Lk].
  assert (HS : containsByte (k ++ ":" ++ v1) LF = false).
  { rewrite !containsByte_append, Hk, H1. reflexivity. }
  assert (E : stripSpace ((k ++ ":" ++ v1) ++ nl) = k ++ ":" ++ v1 ++ nl).
  { rewrite !append_assoc.
    destruct k as [|c k]; [reflexivity |].
    cbn [append stripSpace]. cbn [firstIn] in Fk.
    destruct (Ascii.eqb c " ") eqn:E; [| reflexivity].
    apply Ascii.eqb_eq in E. subst c. discriminate Fk. }
  unfold decodeLine. rewrite Nat.add_comm. cbn [Nat.add].
  replace (k ++ ":" ++ v1 ++ nl ++ String " " (v2 ++ nl ++ rest))
    with ((k ++ ":" ++ v1) ++ nl ++ String " " (v2 ++ nl ++ rest))
    by (rewrite !append_assoc; reflexivity).
  rewrite (decodeLine_loop_continue _ _ _ _ HS), E.
  change (String " " (v2 ++ nl ++ rest)) with (String " " v2 ++ nl ++ rest).
  replace (String.length ((k ++ ":" ++ v1) ++ nl ++ String " " v2 ++ nl ++ rest))
    with (S (String.length (k ++ ":" ++ v1) + String.length (v2 ++ nl ++ rest) + 1))
    by (rewrite !length_append; simpl; lia).
  rewrite decodeLine_loop_break; [| exact H2 | exact Hr].
  change (stripSpace (String " " v2 ++ nl)) with (v2 ++ nl).
  change (EmptyString ++ k ++ ":" ++ v1 ++ nl) with (k ++ ":" ++ v1 ++ nl).
  replace ((k ++ ":" ++ v1 ++ nl) ++ v2 ++ nl)
    with (k ++ ":" ++ (v1 ++ nl ++ v2) ++ nl)
    by (rewrite !append_assoc; reflexivity).
  unfold splitLine, SplitN2.
  rewrite (cutByte_at_colon _ _ Hkc). cbn [negb].
  assert (Hkt : Trim k crlfCutset = k) by (apply Trim_fixed; auto).
  rewrite Hkt. unfold Trim.
  rewrite TrimLeft_fixed
    by (rewrite !append_assoc; rewrite firstIn_append; assumption).
  rewrite TrimRight_line, TrimRight_fixed; [reflexivity |].
  rewrite <- append_assoc. rewrite lastIn_append; assumption.
Qed.

Lemma folded_value_joined_by_line_feed_witness :
  decodeLine (lines ["DESCRIPTION:Bring the"; " notes"; "END:VEVENT"]) true
  = Some ("DESCRIPTION", "Bring the" ++ nl ++ "notes", None, lines ["END:VEVENT"]).
Proof.
  apply (folded_value_joined_by_line_feed "DESCRIPTION" "Bring the" "notes"
           (lines ["END:VEVENT"])); try reflexivity; discriminate.
Defined.

(** ** The variant that reads with [ReadLine] *)

Lemma ReadSlice_scan_line (room : nat) :
  forall s rest, containsByte s LF = false -> String.length s < room ->
    ReadLineVariant.ReadSlice_scan room (s ++ nl ++ rest) LF
    = (s ++ nl, None, rest).
Proof.
  induction room as [|room IH]; intros s rest Hs Hl; [lia |].
  destruct s as [|c s]; [reflexivity |].
  cbn [containsByte] in Hs. apply orb_false_elim in Hs. destruct Hs as [Hc Hs].
  cbn [append ReadLineVariant.ReadSlice_scan]. rewrite Hc.
  rewrite (IH s rest Hs); [reflexivity | simpl in Hl; lia].
Qed.

Lemma ReadSlice_scan_full (room : nat) :
  forall r, room <= String.length r ->
    containsByte (String.substring 0 room r) LF = false ->
    exists b r',
      ReadLineVariant.ReadSlice_scan room r LF = (b, Some bufio_ErrBufferFull, r').
Proof.
  induction room as [|room IH]; intros r Hl Hs; [do 2 eexists; reflexivity |].
  destruct r as [|c r]; [simpl in Hl; lia |].
  cbn [String.substring containsByte] in Hs.
  apply orb_false_elim in Hs. destruct Hs as [Hc Hs].
  cbn [ReadLineVariant.ReadSlice_scan]. rewrite Hc.
  destruct (IH r) as (b & r' & ->); [simpl in Hl; lia | exact Hs |].
  do 2 eexists; reflexivity.
Qed.

Lemma lastByte_endsWith (s : string) (c : ascii) :
  ReadLineVariant.isByte (ReadLineVariant.lastByte s) c = endsWithByte s c.
Proof.
  induction s as [|d s IH]; [reflexivity |].
  destruct s as [|e s]; [reflexivity | exact IH].
Qed.

Lemma dropLast_line (s : string) : ReadLineVariant.dropLast 1 (s ++ nl) = s.
Proof.
  unfold ReadLineVariant.dropLast.
  replace (String.length (s ++ nl) - 1) with (String.length s)
    by (rewrite length_append; simpl; lia).
  apply append_substring.
Qed.

(** [ReadLine] on a raw line shorter than the buffer: the line without its
    line feed. *)
Lemma ReadLine_line (s rest : string) :
  containsByte s LF = false -> endsWithByte s CR = false ->
  String.length s < ReadLineVariant.bufSize ->
  ReadLineVariant.ReadLine (s ++ nl ++ rest) = (s, false, None, rest).
Proof.
  intros Hs Hc Hl. unfold ReadLineVariant.ReadLine, ReadLineVariant.ReadSlice.
  rewrite (ReadSlice_scan_line _ _ _ Hs Hl). cbv iota beta.
  rewrite length_line_nonzero, !lastByte_endsWith.
  rewrite endsWithByte_append by discriminate.
  change (endsWithByte nl LF) with true. cbv iota.
  rewrite dropLast_line, Hc, andb_false_r. cbv iota.
  rewrite dropLast_line. reflexivity.
Qed.

Lemma ReadLineVariant_loop_break (fuel : nat) (s rest buf : string) :
  containsByte s LF = false -> endsWithByte s CR = false ->
  String.length s < ReadLineVariant.bufSize ->
  s <> EmptyString -> HasPrefix rest " " = false ->
  ReadLineVariant.decodeLine_loop (S fuel) (s ++ nl ++ rest) buf
  = Some (LineBuf (buf ++ stripSpace s) rest).
Proof.
  intros Hs Hc Hl Hn Hr. cbn [ReadLineVariant.decodeLine_loop].
  rewrite (ReadLine_line _ _ Hs Hc Hl). cbv iota beta.
  destruct s as [|c s]; [congruence |]. cbn [String.length Nat.eqb]. cbv iota.
  destruct rest as [|d rest]; [reflexivity |].
  cbn [HasPrefix] in Hr. cbn [Peek1].
  destruct (Ascii.eqb d " "); [simpl in Hr; discriminate Hr | reflexivity].
Qed.

Lemma ReadLineVariant_loop_continue (fuel : nat) (s rest buf : string) :
  containsByte s LF = false -> endsWithByte s CR = false ->
  String.length s < ReadLineVariant.bufSize ->
  s <> EmptyString ->
  ReadLineVariant.decodeLine_loop (S fuel) (s ++ nl ++ String " " rest) buf
  = ReadLineVariant.decodeLine_loop fuel (String " " rest) (buf ++ stripSpace s).
Proof.
  intros Hs Hc Hl Hn. cbn [ReadLineVariant.decodeLine_loop].
  rewrite (ReadLine_line _ _ Hs Hc Hl). cbv iota beta.
  destruct s as [|c s]; [congruence |]. reflexivity.
Qed.

(** X17: in the variant that reads with [ReadLine], a line folded once (a
    first raw line, then a raw line that begins with a space) is read as the
    unfolded line: [decodeLine] returns what it returns on the stream where
    the two pieces stand on one raw line.  The pieces hold no line feed, end
    with no carriage return, and together are shorter than the buffer of
    4096 bytes; the first is not empty. *)
Theorem ReadLineVariant_unfolds (s1 s2 rest : string) :
  containsByte s1 LF = false -> containsByte s2 LF = false ->
  endsWithByte s1 CR = false -> endsWithByte s2 CR = false ->
  s1 <> EmptyString ->
  String.length (s1 ++ s2) < ReadLineVariant.bufSize ->
  HasPrefix rest " " = false ->
  ReadLineVariant.decodeLine (s1 ++ nl ++ String " " (s2 ++ nl ++ rest))
  = ReadLineVariant.decodeLine ((s1 ++ s2) ++ nl ++ rest).
Proof.
  intros H1 H2 C1 C2 N1 Hl Hr.
  rewrite length_append in Hl.
  assert (P1 : 0 < String.length s1)
    by (destruct s1; [congruence | simpl; lia]).
  assert (HC : endsWithByte (s1 ++ s2) CR = false).
  { destruct s2 as [|c s2]; [rewrite append_empty_r; exact C1 |].
    rewrite endsWithByte_append; [exact C2 | discriminate]. }
  assert (HL : containsByte (s1 ++ s2) LF = false)
    by (rewrite containsByte_append, H1, H2; reflexivity).
  assert (HS : stripSpace (s1 ++ s2) = stripSpace s1 ++ s2).
  { destruct s1 as [|c s1]; [congruence |]. cbn [append stripSpace].
    destruct (Ascii.eqb c " "); reflexivity. }
  unfold ReadLineVariant.decodeLine.
  replace (String.length (s1 ++ nl ++ String " " (s2 ++ nl ++ rest)) + 1)
    with (S (S (String.length s1 + String.length (s2 ++ nl ++ rest) + 1)))
    by (rewrite !length_append; simpl; rewrite !length_append; simpl; lia).
  rewrite ReadLineVariant_loop_continue; try assumption; [| lia].
  change (String " " (s2 ++ nl ++ rest)) with (String " " s2 ++ nl ++ rest).
  rewrite ReadLineVariant_loop_break; try assumption;
    [| destruct s2; [reflexivity | rewrite endsWithByte_cons; [exact C2 | discriminate]]
     | cbn [String.length]; lia | discriminate].
  replace (String.length ((s1 ++ s2) ++ nl ++ rest) + 1)
    with (S (String.length (s1 ++ s2) + String.length rest + 1))
    by (rewrite !length_append; simpl; lia).
  rewrite ReadLineVariant_loop_break; try assumption;
    [| rewrite length_append; lia
     | destruct s1; [congruence | discriminate]].
  change (stripSpace (String " " s2)) with s2.
  rewrite HS, append_assoc. reflexivity.
Qed.

Lemma ReadLineVariant_unfolds_witness :
  ReadLineVariant.decodeLine (lines ["DESCRIPTION:Bring the"; " notes"; "END:VEVENT"])
  = ReadLineVariant.decodeLine (lines ["DESCRIPTION:Bring the" ++ "notes"; "END:VEVENT"])
  /\ ReadLineVariant.decodeLine (lines ["DESCRIPTION:Bring the"; " notes"; "END:VEVENT"])
     = Some ("DESCRIPTION", "Bring thenotes", None, lines ["END:VEVENT"]).
Proof.
  split; [| vm_compute; reflexivity].
  apply (ReadLineVariant_unfolds "DESCRIPTION:Bring the" "notes"
           (lines ["END:VEVENT"])); try reflexivity; try discriminate.
  apply Nat.ltb_lt. vm_compute. reflexivity.
Defined.

(** X18: in the variant that reads with [ReadLine], a raw line that does not
    fit the buffer (no line feed among the next 4096 bytes) makes
    [decodeLine] fail with the error "unexpected long line". *)
Theorem ReadLineVariant_long_line (r : Reader) :
  ReadLineVariant.bufSize <= String.length r ->
  containsByte (String.substring 0 ReadLineVariant.bufSize r) LF = false ->
  exists r',
    ReadLineVariant.decodeLine r
    = Some (EmptyString, EmptyString, Some errLongLine, r').
Proof.
  intros Hl Hs. unfold ReadLineVariant.decodeLine.
  rewrite Nat.add_1_r. cbn [ReadLineVariant.decodeLine_loop].
  unfold ReadLineVariant.ReadLine, ReadLineVariant.ReadSlice.
  destruct (ReadSlice_scan_full _ _ Hl Hs) as (b & r' & ->).
  cbn [error_eqb]. cbv iota beta.
  destruct (ReadLineVariant.isByte (ReadLineVariant.lastByte b) CR);
    eexists; reflexivity.
Qed.

Lemma ReadLineVariant_long_line_witness :
  ReadLineVariant.bufSize
  <= String.length ("SUMMARY:" ++ repeatByte 4096 "x" ++ nl)
  /\ exists r',
       ReadLineVariant.decodeLine ("SUMMARY:" ++ repeatByte 4096 "x" ++ nl)
       = Some (EmptyString, EmptyString, Some errLongLine, r').
Proof.
  assert (H : ReadLineVariant.bufSize
              <= String.length ("SUMMARY:" ++ repeatByte 4096 "x" ++ nl))
    by (apply Nat.leb_le; vm_compute; reflexivity).
  split; [exact H |].
  apply (ReadLineVariant_long_line _ H). vm_compute. reflexivity.
Defined.

(** ** The rendering of an event *)

Lemma countByte_append (s t : string) (c : ascii) :
  countByte (s ++ t) c = countByte s c + countByte t c.
Proof.
  induction s as [|d s IH]; [reflexivity |].
  cbn [append countByte]. rewrite IH. lia.
Qed.

Lemma countByte_absent (s : string) (c : ascii) :
  containsByte s c = false -> countByte s c = 0.
Proof.
  induction s as [|d s IH]; [reflexivity |].
  cbn [containsByte countByte]. intros H.
  apply orb_false_elim in H. destruct H as [-> H]. rewrite (IH H). reflexivity.
Qed.

Lemma digitByte_not_LF (n : Z) :
  (0 <= n <= 9)%Z -> Ascii.eqb (digitByte n) LF = false.
Proof.
  intros H. destruct (digitByte_spec n H) as [Hd _].
  destruct (Ascii.eqb (digitByte n) LF) eqn:E; [| reflexivity].
  apply Ascii.eqb_eq in E. rewrite E in Hd. discriminate Hd.
Qed.

Lemma digitByte_inj (n n' : Z) :
  (0 <= n <= 9)%Z -> (0 <= n' <= 9)%Z -> digitByte n = digitByte n' -> n = n'.
Proof.
  intros H H' E. destruct (digitByte_spec n H) as [_ <-].
  destruct (digitByte_spec n' H') as [_ <-]. rewrite E. reflexivity.
Qed.

Lemma Time_String_no_LF (t : time.Time) :
  validDate t -> containsByte (Time_String t) LF = false.
Proof.
  intros (Hy & Hm & Hd). pose proof (daysIn_le_31 (time.Month t) (time.Year t)).
  destruct (decimal_digits _ Hy) as (Y1 & Y2 & Y3 & Y4 & _).
  destruct (two_digits (time.Month t)) as (M1 & M2 & _); [lia |].
  destruct (two_digits (time.Day t)) as (D1 & D2 & _); [lia |].
  unfold Time_String. cbn [containsByte].
  rewrite !digitByte_not_LF by assumption. reflexivity.
Qed.

Lemma Time_String_inj (t t' : time.Time) :
  validDate t -> validDate t' -> Time_String t = Time_String t' -> t = t'.
Proof.
  intros (Hy & Hm & Hd) (Hy' & Hm' & Hd') E.
  pose proof (daysIn_le_31 (time.Month t) (time.Year t)).
  pose proof (daysIn_le_31 (time.Month t') (time.Year t')).
  destruct (decimal_digits _ Hy) as (Y1 & Y2 & Y3 & Y4 & Ey).
  destruct (decimal_digits _ Hy') as (Y1' & Y2' & Y3' & Y4' & Ey').
  destruct (two_digits (time.Month t)) as (M1 & M2 & Em); [lia |].
  destruct (two_digits (time.Month t')) as (M1' & M2' & Em'); [lia |].
  destruct (two_digits (time.Day t)) as (D1 & D2 & Ed); [lia |].
  destruct (two_digits (time.Day t')) as (D1' & D2' & Ed'); [lia |].
  unfold Time_String in E.
  injection E as E1 E2 E3 E4 E5 E6 E7 E8.
  apply digitByte_inj in E1, E2, E3, E4, E5, E6, E7, E8; try assumption.
  destruct t as [y m d], t' as [y' m' d']. cbn [time.Year time.Month time.Day] in *.
  assert (y = y') by (rewrite Ey, Ey', E1, E2, E3, E4; reflexivity).
  assert (m = m') by (rewrite Em, Em', E5, E6; reflexivity).
  assert (d = d') by (rewrite Ed, Ed', E7, E8; reflexivity).
  congruence.
Qed.

(** Two texts cut at their first line feed. *)
Lemma cut_at_line_feed (a : string) :
  forall a' x x',
    containsByte a LF = false -> containsByte a' LF = false ->
    a ++ nl ++ x = a' ++ nl ++ x' -> a = a' /\ x = x'.
Proof.
  induction a as [|c a IH]; intros [|c' a'] x x' H H' E.
  - inversion E. auto.
  - cbn [append] in E. inversion E; subst. cbn [containsByte] in H'.
    change (Ascii.eqb LF LF) with true in H'. discriminate H'.
  - cbn [append] in E. inversion E; subst. cbn [containsByte] in H.
    change (Ascii.eqb LF LF) with true in H. discriminate H.
  - cbn [append] in E. inversion E; subst.
    cbn [containsByte] in H, H'.
    apply orb_false_elim in H, H'. destruct H as [_ H], H' as [_ H'].
    destruct (IH _ _ _ H H' H2) as [-> ->]. auto.
Qed.

Lemma append_inj_l (p a b : string) : p ++ a = p ++ b -> a = b.
Proof.
  induction p as [|c p IH]; [trivial |]. cbn [append]. intros E.
  inversion E. auto.
Qed.

Lemma containsByte_label (label s : string) :
  containsByte label LF = false -> containsByte s LF = false ->
  containsByte (label ++ s) LF = false.
Proof. intros H1 H2. rewrite containsByte_append, H1, H2. reflexivity. Qed.

Lemma Event_String_lines (e : Event) :
  Event_String e
  = ("UID:" ++ UID e) ++ nl ++ ("Start: " ++ Time_String (Start e)) ++ nl
    ++ ("End: " ++ Time_String (End e)) ++ nl ++ ("Summary: " ++ Summary e) ++ nl
    ++ ("Location: " ++ Location e) ++ nl ++ ("Description: " ++ Description e).
Proof. reflexivity. Qed.

(** X19: the rendering [String()] of an event as the decoder builds it (text
    fields without a line feed, civil dates) has exactly six lines, and it
    determines the event: two such events with the same rendering are
    equal. *)
Theorem Event_String_six_lines_injective (e e' : Event) :
  wellFormed e -> wellFormed e' ->
  countByte (Event_String e) LF = 5
  /\ (Event_String e = Event_String e' -> e = e').
Proof.
  intros (U & S & L & D & T1 & T2) (U' & S' & L' & D' & T1' & T2').
  pose proof (Time_String_no_LF _ T1) as N1.
  pose proof (Time_String_no_LF _ T2) as N2.
  pose proof (Time_String_no_LF _ T1') as N1'.
  pose proof (Time_String_no_LF _ T2') as N2'.
  split.
  - rewrite Event_String_lines. rewrite !countByte_append.
    rewrite !(countByte_absent (UID e)), !(countByte_absent (Summary e)),
      !(countByte_absent (Location e)), !(countByte_absent (Description e)),
      !(countByte_absent (Time_String (Start e))),
      !(countByte_absent (Time_String (End e))) by assumption.
    reflexivity.
  - rewrite !Event_String_lines. intros E.
    apply cut_at_line_feed in E; try (apply containsByte_label; [reflexivity | assumption]).
    destruct E as [E1 E].
    apply cut_at_line_feed in E; try (apply containsByte_label; [reflexivity | assumption]).
    destruct E as [E2 E].
    apply cut_at_line_feed in E; try (apply containsByte_label; [reflexivity | assumption]).
    destruct E as [E3 E].
    apply cut_at_line_feed in E; try (apply containsByte_label; [reflexivity | assumption]).
    destruct E as [E4 E].
    apply cut_at_line_feed in E; try (apply containsByte_label; [reflexivity | assumption]).
    destruct E as [E5 E6].
    apply append_inj_l in E1, E2, E3, E4, E5, E6.
    apply Time_String_inj in E2, E3; try assumption.
    destruct e, e'. cbn in *. congruence.
Qed.

Lemma Event_String_six_lines_injective_witness :
  let e := mkEvent "1@test" (time.mkTime 2023 1 1) (time.mkTime 2023 1 2)
                   "Test" EmptyString EmptyString in
  wellFormed e
  /\ Event_String e
     = lines ["UID:1@test"; "Start: 2023-01-01 00:00:00 +0000 UTC";
              "End: 2023-01-02 00:00:00 +0000 UTC"; "Summary: Test";
              "Location: "] ++ "Description: "
  /\ countByte (Event_String e) LF = 5.
Proof.
  intros e.
  assert (H : wellFormed e).
  { unfold wellFormed, validDate.
    repeat split; try reflexivity; vm_compute; discriminate. }
  split; [exact H |]. split; [vm_compute; reflexivity |].
  exact (proj1 (Event_String_six_lines_injective e e H H)).
Defined.

(** ** Decoding a calendar written line by line *)
















(** ** Termination *)

(** X21: on every stream the three loops stop: a pass consumes at least one
    byte or ends its loop.  [decodeLine] returns a pair after consuming at
    least one byte, or the bad-line error with an empty key and value (never
    [io.EOF]); [decodeEvent] returns an event or an error and leaves the
    reader no further back; [decode] returns a calendar, an error or the
    panic. *)
Theorem decoding_terminates (r : Reader) (removeCRLF : bool) :
  (exists key value err r',
     decodeLine r removeCRLF = Some (key, value, err, r')
     /\ (err = None /\ String.length r' < String.length r
         \/ err = Some errBadLine /\ key = EmptyString /\ value = EmptyString
            /\ String.length r' <= String.length r))
  /\ (exists res r',
        decodeEvent r removeCRLF = Some (res, r')
        /\ String.length r' <= String.length r)
  /\ (exists o, decode r removeCRLF = Some o).
Proof.
  split; [| split; [apply decodeEvent_total | apply decode_total]].
  destruct (decodeLine_total r removeCRLF)
    as (key & value & err & r' & H & L & [[-> Hl] | [-> [-> ->]]]).
  - exists key, value, None, r'. split; [exact H | left; split; [reflexivity | exact Hl]].
  - exists EmptyString, EmptyString, (Some errBadLine), r'.
    split; [exact H | right; repeat split; exact L].
Qed.

(** ** Blank lines in the variant that reads with [ReadLine] *)

(** X22: in the variant that reads with [ReadLine], any number of blank raw
    lines before a line are skipped: [decodeLine] returns what it returns on
    the stream without them. *)
Theorem ReadLineVariant_skips_blank_lines (n : nat) (rest : string) :
  ReadLineVariant.decodeLine (repeatByte n LF ++ rest)
  = ReadLineVariant.decodeLine rest.
Proof.
  induction n as [|n IH]; [reflexivity |].
  change (repeatByte (S n) LF ++ rest) with (nl ++ (repeatByte n LF ++ rest)).
  rewrite ReadLineVariant_blank_line_skipped. exact IH.
Qed.
